(** * Flight-telemetry loop of DataTransferV1/main.py

    A shallow embedding of the MicroPython telemetry firmware: the four
    peripheral initialisers, the SD logger, the GPS reader, the AT-command
    sender, the start-up sequence and the body of the [while True] loop.

    Modelling conventions.
    - A Python [str] is a Rocq [string] holding its UTF-8 encoding, so
      [.encode()] is the identity and [len] counts code points.
    - A name that may not be bound yet is a [var]; reading an unbound name
      raises [NameError] (or [UnboundLocalError] inside a function).
    - A statement that may raise is a computation in the monad [M]: it
      threads the interpreter state and returns [Ok v] or [Raise e].
    - What a peripheral does when it is called (return a value, raise) is
      not decided by the program: each call site takes its outcome from an
      environment record, so theorems quantify over all behaviours.
    - Sensor readings are exact rationals; [round(x, 2)] and the [.6f] and
      [repr] renderings are decimal.  The binary rounding of the machine
      float is outside the model.
    - [print] and [time.sleep] have no effect on the modelled state. *)

From Stdlib Require Import ZArith NArith QArith List String Ascii Bool Lia.
From Stdlib Require Import DecimalString.
Import ListNotations.

Local Open Scope string_scope.
Local Open Scope Z_scope.

(** ** Exceptions, results and name bindings *)

Inductive exn : Type :=
| NameError (name : string)
| UnboundLocalError (name : string)
| AttributeError (attr : string)
| UnicodeError
| OSError (errno : Z)
| RuntimeError (what : string).

Inductive result (A : Type) : Type :=
| Ok (a : A)
| Raise (e : exn).
Arguments Ok {A} a.
Arguments Raise {A} e.

Definition raises {A} (r : result A) : bool :=
  match r with Ok _ => false | Raise _ => true end.

Inductive var (A : Type) : Type :=
| Unbound
| Bound (a : A).
Arguments Unbound {A}.
Arguments Bound {A} a.

(** ** Strings *)

Module PyStr.

Definition byte (c : ascii) : N := N_of_ascii c.

(** [len(s)]: code points of a UTF-8 string, i.e. bytes that are not
    continuation bytes. *)
Definition is_cont (c : ascii) : bool :=
  ((128 <=? byte c) && (byte c <=? 191))%N.

Fixpoint len (s : string) : Z :=
  match s with
  | EmptyString => 0
  | String c t => (if is_cont c then 0 else 1) + len t
  end.

(** [sub in s] *)
Fixpoint contains (sub s : string) : bool :=
  String.prefix sub s ||
  match s with
  | EmptyString => false
  | String _ t => contains sub t
  end.

(** Truthiness of a [str] or [bytes] object: non-empty. *)
Definition truthy (s : string) : bool :=
  match s with EmptyString => false | _ => true end.

(** *** [bytes.decode('utf-8', errors)] *)

Inductive errors_mode : Type := Strict | Ignore.

Definition keep (cs : string) (r : result string) : result string :=
  match r with
  | Ok t => Ok (cs ++ t)
  | Raise e => Raise e
  end.

(** An undecodable range: fatal in strict mode, dropped when ignoring. *)
Definition bad (errors : errors_mode) (r : result string) : result string :=
  match errors with
  | Strict => Raise UnicodeError
  | Ignore => r
  end.

(** Second byte admissible after lead byte [c0] of a 3-byte form. *)
Definition second_of_3 (c0 c1 : ascii) : bool :=
  (if byte c0 =? 224 then (160 <=? byte c1) && (byte c1 <=? 191)
   else if byte c0 =? 237 then (128 <=? byte c1) && (byte c1 <=? 159)
   else is_cont c1)%N.

(** Second byte admissible after lead byte [c0] of a 4-byte form. *)
Definition second_of_4 (c0 c1 : ascii) : bool :=
  (if byte c0 =? 240 then (144 <=? byte c1) && (byte c1 <=? 191)
   else if byte c0 =? 244 then (128 <=? byte c1) && (byte c1 <=? 143)
   else is_cont c1)%N.

Fixpoint decode (errors : errors_mode) (s : string) : result string :=
  match s with
  | EmptyString => Ok EmptyString
  | String c0 s1 =>
    if (byte c0 <? 128)%N then keep (String c0 "") (decode errors s1)
    else if (byte c0 <? 194)%N then bad errors (decode errors s1)
    else if (byte c0 <? 224)%N then
      match s1 with
      | EmptyString => bad errors (Ok "")
      | String c1 s2 =>
        if is_cont c1
        then keep (String c0 (String c1 "")) (decode errors s2)
        else bad errors (decode errors s1)
      end
    else if (byte c0 <? 240)%N then
      match s1 with
      | EmptyString => bad errors (Ok "")
      | String c1 s2 =>
        if second_of_3 c0 c1 then
          match s2 with
          | EmptyString => bad errors (Ok "")
          | String c2 s3 =>
            if is_cont c2
            then keep (String c0 (String c1 (String c2 "")))
                      (decode errors s3)
            else bad errors (decode errors s2)
          end
        else bad errors (decode errors s1)
      end
    else if (byte c0 <? 245)%N then
      match s1 with
      | EmptyString => bad errors (Ok "")
      | String c1 s2 =>
        if second_of_4 c0 c1 then
          match s2 with
          | EmptyString => bad errors (Ok "")
          | String c2 s3 =>
            if is_cont c2 then
              match s3 with
              | EmptyString => bad errors (Ok "")
              | String c3 s4 =>
                if is_cont c3
                then keep (String c0 (String c1 (String c2 (String c3 ""))))
                          (decode errors s4)
                else bad errors (decode errors s3)
              end
            else bad errors (decode errors s2)
          end
        else bad errors (decode errors s1)
      end
    else bad errors (decode errors s1)
  end.

(** *** [str.strip()] *)

(** One-byte white space: TAB, LF, VT, FF, CR, FS, GS, RS, US, SPACE. *)
Definition space1 (c : ascii) : bool :=
  (((9 <=? byte c) && (byte c <=? 13))
   || ((28 <=? byte c) && (byte c <=? 32)))%N.

(** Two-byte white space: U+0085 and U+00A0. *)
Definition space2 (c0 c1 : ascii) : bool :=
  ((byte c0 =? 194) && ((byte c1 =? 133) || (byte c1 =? 160)))%N.

(** Three-byte white space: U+1680, U+2000..U+200A, U+2028, U+2029,
    U+202F, U+205F, U+3000. *)
Definition space3 (c0 c1 c2 : ascii) : bool :=
  (((byte c0 =? 225) && (byte c1 =? 154) && (byte c2 =? 128))
   || ((byte c0 =? 226) && (byte c1 =? 128)
       && (((128 <=? byte c2) && (byte c2 <=? 138))
           || (byte c2 =? 168) || (byte c2 =? 169) || (byte c2 =? 175)))
   || ((byte c0 =? 226) && (byte c1 =? 129) && (byte c2 =? 159))
   || ((byte c0 =? 227) && (byte c1 =? 128) && (byte c2 =? 128)))%N.

Fixpoint lstrip (s : string) : string :=
  match s with
  | EmptyString => EmptyString
  | String c0 s1 =>
    if space1 c0 then lstrip s1 else
    match s1 with
    | EmptyString => s
    | String c1 s2 =>
      if space2 c0 c1 then lstrip s2 else
      match s2 with
      | EmptyString => s
      | String c2 s3 => if space3 c0 c1 c2 then lstrip s3 else s
      end
    end
  end.

Fixpoint rev (s : string) : string :=
  match s with
  | EmptyString => EmptyString
  | String c t => rev t ++ String c ""
  end.

(** [lstrip] on the reversed string: the byte patterns are mirrored. *)
Fixpoint lstrip_rev (s : string) : string :=
  match s with
  | EmptyString => EmptyString
  | String c0 s1 =>
    if space1 c0 then lstrip_rev s1 else
    match s1 with
    | EmptyString => s
    | String c1 s2 =>
      if space2 c1 c0 then lstrip_rev s2 else
      match s2 with
      | EmptyString => s
      | String c2 s3 => if space3 c2 c1 c0 then lstrip_rev s3 else s
      end
    end
  end.

Definition rstrip (s : string) : string := rev (lstrip_rev (rev s)).

Definition strip (s : string) : string := rstrip (lstrip s).

End PyStr.

(** ** Numbers and their renderings *)

Module PyNum.

(** [str(n)] for an [int]. *)
Definition str_int (n : Z) : string := NilZero.string_of_int (Z.to_int n).

Definition str_nat (n : N) : string := NilZero.string_of_uint (N.to_uint n).

Fixpoint zeros (k : nat) : string :=
  match k with
  | O => ""
  | S k' => String "0" (zeros k')
  end.

(** [n] written with at least [width] digits. *)
Definition zero_pad (width : nat) (n : N) : string :=
  let s := str_nat n in
  zeros (width - String.length s) ++ s.

(** Nearest integer to [|x| * 10^k], ties to even. *)
Definition scaled_round (k : N) (x : Q) : N :=
  let n := (Z.abs_N (Qnum x) * 10 ^ k)%N in
  let d := Npos (Qden x) in
  let q := (n / d)%N in
  let r := (n mod d)%N in
  if (2 * r <? d)%N then q
  else if (d <? 2 * r)%N then (q + 1)%N
  else if N.even q then q else (q + 1)%N.

Definition negative (x : Q) : bool := Qnum x <? 0.

(** The value of [round(x, 2)]: a sign and a number of hundredths.  The
    sign survives rounding to zero, as it does for a float. *)
Record rounded : Type := { neg : bool; cents : N }.

Definition round2 (x : Q) : rounded :=
  {| neg := negative x; cents := scaled_round 2 x |}.

Definition sign (b : bool) : string := if b then "-" else "".

(** [repr] of a float holding a number of hundredths: the shortest
    decimal, with at least one fractional digit. *)
Definition repr (v : rounded) : string :=
  let whole := (cents v / 100)%N in
  let frac := (cents v mod 100)%N in
  sign (neg v) ++ str_nat whole ++ "." ++
  (if (frac mod 10 =? 0)%N then str_nat (frac / 10) else zero_pad 2 frac).

(** [f"{x:.6f}"] *)
Definition format_6f (x : Q) : string :=
  let m := scaled_round 6 x in
  sign (negative x) ++ str_nat (m / 1000000) ++ "." ++
  zero_pad 6 (m mod 1000000).

(** [f"{v}"] where [v] is a float or [None]. *)
Definition str_opt (v : option rounded) : string :=
  match v with
  | Some x => repr x
  | None => "None"
  end.

End PyNum.


(** ** Interpreter state *)

(** The objects the constructors of [machine], [bmpxxx] and [sdcard_lib]
    return, named by their constructor arguments. *)
Inductive device : Type :=
| UART (id baudrate tx rx : Z)
| BMP390 (sda scl address : Z)
| SDCard (spi_id sck mosi miso cs : Z).

(** The module-level names of main.py, followed by the two things the
    program writes to: the log file [/sd/flight_data.txt] and the byte
    stream sent to the transmitter UART (one entry per [uart.write]).
    [packet] is bound before the loop starts and is kept as an integer;
    Python integers do not wrap. *)
Record state : Type := mkState {
  TRANSMITTER_INITIALIZED : bool;
  GPS_INITIALIZED : bool;
  BMP_INITIALIZED : bool;
  SD_INITIALIZED : bool;
  uart_transmitter : var device;
  gps : var device;
  bmp : var (option device);
  sd_card : var (option device);
  packet : Z;
  altitude : var (option PyNum.rounded);
  pressure : var PyNum.rounded;
  gps_data : var (option string);
  msg : var string;
  sd_line : var string;
  response : var (option string);
  flight_data : string;
  radio_out : list string
}.

Definition set_TRANSMITTER_INITIALIZED (v : bool) (s : state) : state :=
  mkState
    v (GPS_INITIALIZED s) (BMP_INITIALIZED s) (SD_INITIALIZED s)
    (uart_transmitter s) (gps s) (bmp s) (sd_card s)
    (packet s) (altitude s) (pressure s) (gps_data s)
    (msg s) (sd_line s) (response s)
    (flight_data s) (radio_out s).

Definition set_GPS_INITIALIZED (v : bool) (s : state) : state :=
  mkState
    (TRANSMITTER_INITIALIZED s) v (BMP_INITIALIZED s) (SD_INITIALIZED s)
    (uart_transmitter s) (gps s) (bmp s) (sd_card s)
    (packet s) (altitude s) (pressure s) (gps_data s)
    (msg s) (sd_line s) (response s)
    (flight_data s) (radio_out s).

Definition set_BMP_INITIALIZED (v : bool) (s : state) : state :=
  mkState
    (TRANSMITTER_INITIALIZED s) (GPS_INITIALIZED s) v (SD_INITIALIZED s)
    (uart_transmitter s) (gps s) (bmp s) (sd_card s)
    (packet s) (altitude s) (pressure s) (gps_data s)
    (msg s) (sd_line s) (response s)
    (flight_data s) (radio_out s).

Definition set_SD_INITIALIZED (v : bool) (s : state) : state :=
  mkState
    (TRANSMITTER_INITIALIZED s) (GPS_INITIALIZED s) (BMP_INITIALIZED s) v
    (uart_transmitter s) (gps s) (bmp s) (sd_card s)
    (packet s) (altitude s) (pressure s) (gps_data s)
    (msg s) (sd_line s) (response s)
    (flight_data s) (radio_out s).

Definition set_uart_transmitter (v : var device) (s : state) : state :=
  mkState
    (TRANSMITTER_INITIALIZED s) (GPS_INITIALIZED s) (BMP_INITIALIZED s) (SD_INITIALIZED s)
    v (gps s) (bmp s) (sd_card s)
    (packet s) (altitude s) (pressure s) (gps_data s)
    (msg s) (sd_line s) (response s)
    (flight_data s) (radio_out s).

Definition set_gps (v : var device) (s : state) : state :=
  mkState
    (TRANSMITTER_INITIALIZED s) (GPS_INITIALIZED s) (BMP_INITIALIZED s) (SD_INITIALIZED s)
    (uart_transmitter s) v (bmp s) (sd_card s)
    (packet s) (altitude s) (pressure s) (gps_data s)
    (msg s) (sd_line s) (response s)
    (flight_data s) (radio_out s).

Definition set_bmp (v : var (option device)) (s : state) : state :=
  mkState
    (TRANSMITTER_INITIALIZED s) (GPS_INITIALIZED s) (BMP_INITIALIZED s) (SD_INITIALIZED s)
    (uart_transmitter s) (gps s) v (sd_card s)
    (packet s) (altitude s) (pressure s) (gps_data s)
    (msg s) (sd_line s) (response s)
    (flight_data s) (radio_out s).

Definition set_sd_card (v : var (option device)) (s : state) : state :=
  mkState
    (TRANSMITTER_INITIALIZED s) (GPS_INITIALIZED s) (BMP_INITIALIZED s) (SD_INITIALIZED s)
    (uart_transmitter s) (gps s) (bmp s) v
    (packet s) (altitude s) (pressure s) (gps_data s)
    (msg s) (sd_line s) (response s)
    (flight_data s) (radio_out s).

Definition set_packet (v : Z) (s : state) : state :=
  mkState
    (TRANSMITTER_INITIALIZED s) (GPS_INITIALIZED s) (BMP_INITIALIZED s) (SD_INITIALIZED s)
    (uart_transmitter s) (gps s) (bmp s) (sd_card s)
    v (altitude s) (pressure s) (gps_data s)
    (msg s) (sd_line s) (response s)
    (flight_data s) (radio_out s).

Definition set_altitude (v : var (option PyNum.rounded)) (s : state) : state :=
  mkState
    (TRANSMITTER_INITIALIZED s) (GPS_INITIALIZED s) (BMP_INITIALIZED s) (SD_INITIALIZED s)
    (uart_transmitter s) (gps s) (bmp s) (sd_card s)
    (packet s) v (pressure s) (gps_data s)
    (msg s) (sd_line s) (response s)
    (flight_data s) (radio_out s).

Definition set_pressure (v : var PyNum.rounded) (s : state) : state :=
  mkState
    (TRANSMITTER_INITIALIZED s) (GPS_INITIALIZED s) (BMP_INITIALIZED s) (SD_INITIALIZED s)
    (uart_transmitter s) (gps s) (bmp s) (sd_card s)
    (packet s) (altitude s) v (gps_data s)
    (msg s) (sd_line s) (response s)
    (flight_data s) (radio_out s).

Definition set_gps_data (v : var (option string)) (s : state) : state :=
  mkState
    (TRANSMITTER_INITIALIZED s) (GPS_INITIALIZED s) (BMP_INITIALIZED s) (SD_INITIALIZED s)
    (uart_transmitter s) (gps s) (bmp s) (sd_card s)
    (packet s) (altitude s) (pressure s) v
    (msg s) (sd_line s) (response s)
    (flight_data s) (radio_out s).

Definition set_msg (v : var string) (s : state) : state :=
  mkState
    (TRANSMITTER_INITIALIZED s) (GPS_INITIALIZED s) (BMP_INITIALIZED s) (SD_INITIALIZED s)
    (uart_transmitter s) (gps s) (bmp s) (sd_card s)
    (packet s) (altitude s) (pressure s) (gps_data s)
    v (sd_line s) (response s)
    (flight_data s) (radio_out s).

Definition set_sd_line (v : var string) (s : state) : state :=
  mkState
    (TRANSMITTER_INITIALIZED s) (GPS_INITIALIZED s) (BMP_INITIALIZED s) (SD_INITIALIZED s)
    (uart_transmitter s) (gps s) (bmp s) (sd_card s)
    (packet s) (altitude s) (pressure s) (gps_data s)
    (msg s) v (response s)
    (flight_data s) (radio_out s).

Definition set_response (v : var (option string)) (s : state) : state :=
  mkState
    (TRANSMITTER_INITIALIZED s) (GPS_INITIALIZED s) (BMP_INITIALIZED s) (SD_INITIALIZED s)
    (uart_transmitter s) (gps s) (bmp s) (sd_card s)
    (packet s) (altitude s) (pressure s) (gps_data s)
    (msg s) (sd_line s) v
    (flight_data s) (radio_out s).

Definition set_flight_data (v : string) (s : state) : state :=
  mkState
    (TRANSMITTER_INITIALIZED s) (GPS_INITIALIZED s) (BMP_INITIALIZED s) (SD_INITIALIZED s)
    (uart_transmitter s) (gps s) (bmp s) (sd_card s)
    (packet s) (altitude s) (pressure s) (gps_data s)
    (msg s) (sd_line s) (response s)
    v (radio_out s).

Definition set_radio_out (v : list string) (s : state) : state :=
  mkState
    (TRANSMITTER_INITIALIZED s) (GPS_INITIALIZED s) (BMP_INITIALIZED s) (SD_INITIALIZED s)
    (uart_transmitter s) (gps s) (bmp s) (sd_card s)
    (packet s) (altitude s) (pressure s) (gps_data s)
    (msg s) (sd_line s) (response s)
    (flight_data s) v.
(** The interpreter before line 8 has run anything but the four flag
    assignments: every flag false, no other name bound, nothing written. *)
Definition initial : state :=
  mkState false false false false Unbound Unbound Unbound Unbound
          0 Unbound Unbound Unbound Unbound Unbound Unbound "" [].

(** ** The monad of statements *)

Definition M (A : Type) : Type := state -> result A * state.

Definition ret {A} (a : A) : M A := fun s => (Ok a, s).

Definition throw {A} (e : exn) : M A := fun s => (Raise e, s).

Definition bind {A B} (c : M A) (k : A -> M B) : M B :=
  fun s =>
    match c s with
    | (Ok a, s') => k a s'
    | (Raise e, s') => (Raise e, s')
    end.

Notation "x <- c ;; k" := (bind c (fun x => k))
  (at level 61, c at next level, right associativity).
Notation "c ;; k" := (bind c (fun _ => k))
  (at level 61, right associativity).

(** [try: c except: h] *)
Definition try_except {A} (c : M A) (h : exn -> M A) : M A :=
  fun s =>
    match c s with
    | (Ok a, s') => (Ok a, s')
    | (Raise e, s') => h e s'
    end.

Definition get {A} (f : state -> A) : M A := fun s => (Ok (f s), s).

Definition modify (f : state -> state) : M unit := fun s => (Ok tt, f s).

(** The outcome of a call into a driver or the runtime. *)
Definition call {A} (r : result A) : M A := fun s => (r, s).

(** Reading a module-level name. *)
Definition name {A} (n : string) (f : state -> var A) : M A :=
  fun s =>
    match f s with
    | Bound a => (Ok a, s)
    | Unbound => (Raise (NameError n), s)
    end.

(** Returning a function-local name. *)
Definition local {A} (n : string) (v : var A) : M A :=
  match v with
  | Bound a => ret a
  | Unbound => throw (UnboundLocalError n)
  end.

(** ** What the peripherals do *)

(** One exchange with a UART: whether [write] raises, what [any()]
    reports, and what [read()] returns ([None] models Python's [None]). *)
Record uart_io : Type := {
  io_write : result unit;
  io_any : result N;
  io_read : result (option string)
}.

(** The bytes an exchange delivers to a caller that asks [any()] first
    and then calls [read()] once. *)
Definition received (io : uart_io) : string :=
  match io_any io with
  | Ok 0%N => ""
  | Ok _ =>
    match io_read io with
    | Ok (Some b) => b
    | _ => ""
    end
  | Raise _ => ""
  end.

(** The object [gps_parser.parse_gps_data] returns; the parser itself is
    outside main.py and is taken from the environment. *)
Record GPSData : Type := {
  has_fix : bool;
  latitude : Q;
  longitude : Q;
  satellites : Z;
  time : string
}.

(** Outcomes of the start-up calls (lines 153-192). *)
Record boot_env : Type := {
  boot_tx_open : result unit;
  boot_gps_open : result unit;
  boot_bmp_open : result unit;
  boot_bmp_calibrate : result unit;
  boot_sd_mount : result unit;
  boot_sd_header : result unit;
  boot_bmp_recalibrate : result unit;
  boot_at : nat -> uart_io
}.

(** Outcomes of the calls of one loop iteration (lines 209-247). *)
Record cycle_env : Type := {
  tx_open : result unit;
  bmp_altitude : result Q;
  bmp_pressure : result Q;
  gps_rx : nat -> uart_io;
  parse_gps_data : string -> result GPSData;
  sd_write : result unit;
  tx_io : uart_io
}.

(** ** The initialisers (lines 15-89) *)

(** Lines 15-25.  [opened] is the outcome of [machine.UART(0, ...)].  The
    local [uart_transmitter] is assigned only when the constructor
    returns. *)
Definition init_transmitter (opened : result unit) (tx_pin rx_pin : Z)
  : M device :=
  l <- try_except
         (call opened ;;
          modify (set_TRANSMITTER_INITIALIZED true) ;;
          ret (Bound (UART 0 115200 tx_pin rx_pin)))
         (fun _ =>
          modify (set_TRANSMITTER_INITIALIZED false) ;;
          ret Unbound) ;;
  local "uart_transmitter" l.

(** Lines 28-37. *)
Definition init_gps (opened : result unit) (tx_pin rx_pin : Z) : M device :=
  l <- try_except
         (call opened ;;
          modify (set_GPS_INITIALIZED true) ;;
          ret (Bound (UART 1 9600 tx_pin rx_pin)))
         (fun _ =>
          modify (set_GPS_INITIALIZED false) ;;
          ret Unbound) ;;
  local "gps_module" l.

(** Lines 41-54.  The local [bmp] starts as [None]; [opened] covers lines
    45-46 and [calibrated] the attribute assignment of line 47. *)
Definition init_bmp (opened calibrated : result unit) (sda_pin scl_pin : Z)
  : M (option device) :=
  match opened with
  | Raise _ => modify (set_BMP_INITIALIZED false) ;; ret None
  | Ok _ =>
    let b := BMP390 sda_pin scl_pin 119 in
    match calibrated with
    | Raise _ => modify (set_BMP_INITIALIZED false) ;; ret (Some b)
    | Ok _ => modify (set_BMP_INITIALIZED true) ;; ret (Some b)
    end
  end.

Definition header : string :=
  String "010" (String "010"
    ("Timestamp#Altitude#Latitude#Longitude#GPS_Time|" ++ String "010" "")).

Definition append_file (text : string) (s : state) : state :=
  set_flight_data (flight_data s ++ text) s.

(** Lines 58-89.  [mounted] covers lines 72-79, [written] lines 83-84. *)
Definition init_sd_card (mounted written : result unit)
           (spi_id sck_pin mosi_pin miso_pin cs_pin : Z) : M (option device) :=
  try_except
    (call mounted ;;
     modify (set_SD_INITIALIZED true) ;;
     call written ;;
     modify (append_file header) ;;
     ret (Some (SDCard spi_id sck_pin mosi_pin miso_pin cs_pin)))
    (fun _ =>
     modify (set_SD_INITIALIZED false) ;;
     ret None).

(** ** Logging (lines 93-104) *)

Definition write_to_sd (written : result unit) (data_line : string) : M bool :=
  ready <- get SD_INITIALIZED ;;
  if negb ready then ret false
  else
    try_except
      (call written ;;
       modify (append_file (data_line ++ "|")) ;;
       ret true)
      (fun _ => ret false).

(** ** GPS acquisition (lines 114-146) *)

(** What one turn of the polling loop adds to [raw_data] (lines 119-125);
    [any()] is outside the inner [try], [read()] and [decode] inside. *)
Definition poll (io : uart_io) (raw_data : string) : result string :=
  match io_any io with
  | Raise e => Raise e
  | Ok 0%N => Ok raw_data
  | Ok _ =>
    match io_read io with
    | Raise _ => Ok raw_data
    | Ok None => Ok raw_data
    | Ok (Some chunk) =>
      if PyStr.truthy chunk then
        match PyStr.decode PyStr.Ignore chunk with
        | Ok text => Ok (raw_data ++ text)
        | Raise _ => Ok raw_data
        end
      else Ok raw_data
    end
  end.

(** [for _ in range(n)], turn [i] onwards. *)
Fixpoint collect (rx : nat -> uart_io) (i n : nat) (raw_data : string)
  : result string :=
  match n with
  | O => Ok raw_data
  | S n' =>
    match poll (rx i) raw_data with
    | Raise e => Raise e
    | Ok raw_data' => collect rx (S i) n' raw_data'
    end
  end.

Definition format_fix (data : GPSData) : string :=
  PyNum.format_6f (latitude data) ++ "#" ++
  PyNum.format_6f (longitude data) ++ "#" ++ time data.

(** The body of the outer [try] (lines 116-143). *)
Definition get_gps_data_body (rx : nat -> uart_io)
           (parse : string -> result GPSData) : result (option string) :=
  match collect rx 0 6 "" with
  | Raise e => Raise e
  | Ok raw_data =>
    if 0 <? PyStr.len raw_data then
      match parse raw_data with
      | Raise e => Raise e
      | Ok data =>
        if has_fix data then Ok (Some (format_fix data)) else Ok None
      end
    else Ok None
  end.

Definition get_gps_data (rx : nat -> uart_io)
           (parse : string -> result GPSData) : result (option string) :=
  match get_gps_data_body rx parse with
  | Ok r => Ok r
  | Raise _ => Ok None
  end.

(** ** AT commands (lines 161-182) *)

Definition crlf : string := String "013" (String "010" "").

Definition push_radio (bytes : string) (s : state) : state :=
  set_radio_out (radio_out s ++ [bytes]) s.

(** [timeout] and [debug] only select a sleep and a print. *)
Definition send_cmd (io : uart_io) (uart : device) (cmd : string)
           (wait_response : bool) : M (option string) :=
  call (io_write io) ;;
  modify (push_radio (cmd ++ crlf)) ;;
  if wait_response then
    n <- call (io_any io) ;;
    if (n =? 0)%N then ret None
    else
      r <- call (io_read io) ;;
      match r with
      | None => ret None
      | Some bytes =>
        if PyStr.truthy bytes then
          match PyStr.decode PyStr.Ignore bytes with
          | Ok text => ret (Some (PyStr.strip text))
          | Raise _ => ret None
          end
        else ret None
      end
  else ret None.

(** The test of line 244. *)
Definition acknowledged (response : option string) : bool :=
  match response with
  | None => false
  | Some r =>
    PyStr.truthy r && (PyStr.contains "+OK" r || String.eqb r "OK")
  end.

(** ** One iteration of the loop (lines 209-247) *)

(** An attribute of the object a name holds; [None] has none. *)
Definition attribute {A} (attr : string) (obj : option device)
           (r : result A) : M A :=
  match obj with
  | None => throw (AttributeError attr)
  | Some _ => call r
  end.

(** Lines 212-215. *)
Definition retry_transmitter (env : cycle_env) : M unit :=
  ready <- get TRANSMITTER_INITIALIZED ;;
  if negb ready then
    d <- init_transmitter (tx_open env) 0 1 ;;
    modify (set_uart_transmitter (Bound d))
  else ret tt.

(** Lines 218-223.  Lines 219 and 220 are one step: nothing between them
    can raise. *)
Definition read_bmp (env : cycle_env) : M unit :=
  ready <- get BMP_INITIALIZED ;;
  if ready then
    b <- name "bmp" bmp ;;
    a <- attribute "altitude" b (bmp_altitude env) ;;
    modify (set_altitude (Bound (Some (PyNum.round2 a)))) ;;
    b' <- name "bmp" bmp ;;
    p <- attribute "pressure" b' (bmp_pressure env) ;;
    modify (set_pressure (Bound (PyNum.round2 p)))
  else modify (set_altitude (Bound None)).

(** Lines 226-229. *)
Definition read_gps (env : cycle_env) : M unit :=
  ready <- get GPS_INITIALIZED ;;
  if ready then
    name "gps" gps ;;
    r <- call (get_gps_data (gps_rx env) (parse_gps_data env)) ;;
    modify (set_gps_data (Bound r))
  else modify (set_gps_data (Bound None)).

(** [f"{gps_data}"] *)
Definition str_gps (g : option string) : string :=
  match g with
  | Some s => s
  | None => "None"
  end.

(** [f"{gps_data if gps_data else 'None'}"] *)
Definition gps_or_none (g : option string) : string :=
  match g with
  | Some s => if PyStr.truthy s then s else "None"
  | None => "None"
  end.

(** Line 233. *)
Definition assemble_msg : M unit :=
  k <- get packet ;;
  p <- name "pressure" pressure ;;
  a <- name "altitude" altitude ;;
  g <- name "gps_data" gps_data ;;
  modify (set_msg (Bound (PyNum.str_int k ++ "#" ++ PyNum.repr p ++ "#" ++
                          PyNum.str_opt a ++ "#" ++ str_gps g))).

(** Line 238. *)
Definition assemble_sd_line : M unit :=
  k <- get packet ;;
  p <- name "pressure" pressure ;;
  a <- name "altitude" altitude ;;
  g <- name "gps_data" gps_data ;;
  modify (set_sd_line (Bound (PyNum.str_int k ++ "#" ++ PyNum.repr p ++ "#" ++
                              PyNum.str_opt a ++ "#" ++ gps_or_none g))).

(** Whether line 240 and line 245 were reached. *)
Record report : Type := { logged : bool; acked : bool }.

Definition send_command (m : string) : string :=
  "AT+SEND=2," ++ PyNum.str_int (PyStr.len m) ++ "," ++ m.

(** Lines 243-245. *)
Definition transmit (env : cycle_env) (was_logged : bool) : M report :=
  u <- name "uart_transmitter" uart_transmitter ;;
  m <- name "msg" msg ;;
  r <- send_cmd (tx_io env) u (send_command m) true ;;
  modify (set_response (Bound r)) ;;
  ret {| logged := was_logged; acked := acknowledged r |}.

(** Lines 209-238: count, recover, read, assemble. *)
Definition acquire (env : cycle_env) : M unit :=
  modify (fun s => set_packet (packet s + 1) s) ;;
  retry_transmitter env ;;
  read_bmp env ;;
  read_gps env ;;
  assemble_msg ;;
  assemble_sd_line.

(** Lines 239-245: log, then transmit. *)
Definition log_and_send (env : cycle_env) : M report :=
  l <- name "sd_line" sd_line ;;
  was_logged <- write_to_sd (sd_write env) l ;;
  transmit env was_logged.

Definition cycle (env : cycle_env) : M report :=
  acquire env ;; log_and_send env.

(** ** Start-up (lines 153-207) and the loop *)

Definition configuration : list string :=
  ["AT"; "AT+RESET"; "AT+ADDRESS=1"; "AT+NETWORKID=18";
   "AT+BAND=915000000"; "AT+PARAMETER=10,8,1,12"].

Fixpoint configure (io : nat -> uart_io) (i : nat) (cmds : list string)
  : M unit :=
  match cmds with
  | [] => ret tt
  | c :: rest =>
    u <- name "uart_transmitter" uart_transmitter ;;
    send_cmd (io i) u c true ;;
    configure io (S i) rest
  end.

Definition startup (b : boot_env) : M unit :=
  d <- init_transmitter (boot_tx_open b) 0 1 ;;
  modify (set_uart_transmitter (Bound d)) ;;
  g <- init_gps (boot_gps_open b) 4 5 ;;
  modify (set_gps (Bound g)) ;;
  o <- init_bmp (boot_bmp_open b) (boot_bmp_calibrate b) 12 13 ;;
  modify (set_bmp (Bound o)) ;;
  c <- init_sd_card (boot_sd_mount b) (boot_sd_header b) 1 10 11 8 9 ;;
  modify (set_sd_card (Bound c)) ;;
  ready <- get BMP_INITIALIZED ;;
  (if ready then
     o' <- name "bmp" bmp ;;
     attribute "sea_level_pressure" o' (boot_bmp_recalibrate b)
   else ret tt) ;;
  configure (boot_at b) 0 configuration ;;
  modify (set_packet 0).

(** [while True] over the behaviours of the first [length envs] turns: the
    outcome and the state after every iteration that ran.  An iteration
    that raises is the last one: the exception leaves the module. *)
Fixpoint loop (envs : list cycle_env) (s : state)
  : list (result report * state) :=
  match envs with
  | [] => []
  | env :: rest =>
    let o := cycle env s in
    o :: match fst o with
         | Ok _ => loop rest (snd o)
         | Raise _ => []
         end
  end.

(** States in which the loop body can start. *)
Inductive reachable : state -> Prop :=
| reach_startup b s :
    startup b initial = (Ok tt, s) -> reachable s
| reach_cycle env s r s' :
    reachable s -> cycle env s = (Ok r, s') -> reachable s'.

(** ** Sample behaviours *)

Definition quiet : uart_io :=
  {| io_write := Ok tt; io_any := Ok 0%N; io_read := Ok None |}.

Definition replies (bytes : string) : uart_io :=
  {| io_write := Ok tt;
     io_any := Ok (N.of_nat (String.length bytes));
     io_read := Ok (Some bytes) |}.

Definition no_parser (raw : string) : result GPSData :=
  Raise (RuntimeError "no sentence").

Definition boot_ok : boot_env :=
  {| boot_tx_open := Ok tt; boot_gps_open := Ok tt;
     boot_bmp_open := Ok tt; boot_bmp_calibrate := Ok tt;
     boot_sd_mount := Ok tt; boot_sd_header := Ok tt;
     boot_bmp_recalibrate := Ok tt;
     boot_at := fun _ => replies ("+OK" ++ crlf) |}.

Definition cycle_ok : cycle_env :=
  {| tx_open := Ok tt;
     bmp_altitude := Ok (123.45)%Q;
     bmp_pressure := Ok (1013.25)%Q;
     gps_rx := fun _ => quiet;
     parse_gps_data := no_parser;
     sd_write := Ok tt;
     tx_io := replies ("+OK" ++ crlf) |}.

(** ** Predicates on states and statements *)

(** [c] never changes the [f]-part of the state, whatever it returns. *)
Definition keeps {B A : Type} (f : state -> B) (c : M A) : Prop :=
  forall s, f (snd (c s)) = f s.

(** What the loop body relies on when it starts: both UARTs were opened,
    and either the barometer object is there or [pressure] was never
    assigned. *)
Definition loop_ready (s : state) : Prop :=
  TRANSMITTER_INITIALIZED s = true /\ GPS_INITIALIZED s = true /\
  (exists u, uart_transmitter s = Bound u) /\
  (exists g, gps s = Bound g) /\
  (if BMP_INITIALIZED s then exists d, bmp s = Bound (Some d)
   else pressure s = Unbound).

(** The names the loop body never assigns once the transmitter is up. *)
Definition handles (s : state) :=
  (TRANSMITTER_INITIALIZED s, GPS_INITIALIZED s, BMP_INITIALIZED s,
   SD_INITIALIZED s, uart_transmitter s, gps s, bmp s, sd_card s).

(** What start-up fixes for the loop, apart from the SD card. *)
Definition core (s : state) :=
  (TRANSMITTER_INITIALIZED s, GPS_INITIALIZED s, BMP_INITIALIZED s,
   uart_transmitter s, gps s, bmp s, pressure s, packet s).

(** ** Sample failures and sample runs *)

(** The BMP390 does not answer at start-up. *)
Definition boot_no_bmp : boot_env :=
  {| boot_tx_open := Ok tt; boot_gps_open := Ok tt;
     boot_bmp_open := Raise (OSError 19); boot_bmp_calibrate := Ok tt;
     boot_sd_mount := Ok tt; boot_sd_header := Ok tt;
     boot_bmp_recalibrate := Ok tt;
     boot_at := fun _ => replies ("+OK" ++ crlf) |}.

(** No card in the slot at start-up. *)
Definition boot_no_sd : boot_env :=
  {| boot_tx_open := Ok tt; boot_gps_open := Ok tt;
     boot_bmp_open := Ok tt; boot_bmp_calibrate := Ok tt;
     boot_sd_mount := Raise (OSError 19); boot_sd_header := Ok tt;
     boot_bmp_recalibrate := Ok tt;
     boot_at := fun _ => replies ("+OK" ++ crlf) |}.

Definition booted : state := snd (startup boot_ok initial).
Definition booted_no_bmp : state := snd (startup boot_no_bmp initial).
Definition booted_no_sd : state := snd (startup boot_no_sd initial).

(** The barometer stops answering: [bmp.altitude] raises. *)
Definition cycle_bmp_fault : cycle_env :=
  {| tx_open := Ok tt;
     bmp_altitude := Raise (OSError 5);
     bmp_pressure := Ok (1013.25)%Q;
     gps_rx := fun _ => quiet;
     parse_gps_data := no_parser;
     sd_write := Ok tt;
     tx_io := replies ("+OK" ++ crlf) |}.

(** The transmitter UART stops accepting writes. *)
Definition cycle_radio_fault : cycle_env :=
  {| tx_open := Ok tt;
     bmp_altitude := Ok (123.45)%Q;
     bmp_pressure := Ok (1013.25)%Q;
     gps_rx := fun _ => quiet;
     parse_gps_data := no_parser;
     sd_write := Ok tt;
     tx_io := {| io_write := Raise (OSError 110);
                 io_any := Ok 0%N; io_read := Ok None |} |}.

Definition fix_123519 : GPSData :=
  {| has_fix := true;
     latitude := (12.345678)%Q;
     longitude := (-98.765432)%Q;
     satellites := 7;
     time := "123519" |}.

(** The GPS delivers a sentence on the first poll and the parser finds a
    fix in it. *)
Definition cycle_fix : cycle_env :=
  {| tx_open := Ok tt;
     bmp_altitude := Ok (123.45)%Q;
     bmp_pressure := Ok (1013.25)%Q;
     gps_rx := fun i => match i with
                        | O => replies "$GPRMC,123519,A"
                        | _ => quiet
                        end;
     parse_gps_data := fun _ => Ok fix_123519;
     sd_write := Ok tt;
     tx_io := replies ("+OK=2,5" ++ crlf) |}.

(** The state after the iterations [envs], whatever their outcome. *)
Fixpoint run (envs : list cycle_env) (s : state) : state :=
  match envs with
  | [] => s
  | env :: rest => run rest (snd (cycle env s))
  end.

(** ** The payload in the words of the specification *)

(** The radio payload as the specification words it (section 6 and
    section 4.6 step 6): a field without data is left blank. *)
Definition blank_or {A} (render : A -> string) (v : option A) : string :=
  match v with
  | Some x => render x
  | None => ""
  end.

Definition spec_radio_payload (k : Z) (p a : option PyNum.rounded)
           (g : option string) : string :=
  PyNum.str_int k ++ "#" ++ blank_or PyNum.repr p ++ "#" ++
  blank_or PyNum.repr a ++ "#" ++ blank_or (fun x => x) g.

(** The state after two complete iterations; the next carries 3. *)
Definition after_two : state := run [cycle_ok; cycle_ok] booted.

(** ** Projections and predicates for the remaining code *)

(** Every module-level name of main.py. *)
Definition python_names (s : state) :=
  (TRANSMITTER_INITIALIZED s, GPS_INITIALIZED s, BMP_INITIALIZED s,
   SD_INITIALIZED s, uart_transmitter s, gps s, bmp s, sd_card s,
   (packet s, altitude s, pressure s, gps_data s, msg s, sd_line s,
    response s)).


(** The flags and objects of the GPS, the barometer and the SD card. *)
Definition sensors_and_storage (s : state) :=
  (GPS_INITIALIZED s, BMP_INITIALIZED s, SD_INITIALIZED s,
   gps s, bmp s, sd_card s).

(** An exchange in which no call made by [send_cmd] with [wait_response]
    raises: the write, [any()], and [read()] if [any()] reported bytes. *)
Definition exchange_completes (io : uart_io) : bool :=
  negb (raises (io_write io)) &&
  match io_any io with
  | Raise _ => false
  | Ok 0%N => true
  | Ok _ => negb (raises (io_read io))
  end.

(** The text one poll of the GPS UART contributes to [raw_data]. *)
Definition poll_text (io : uart_io) : string :=
  match PyStr.decode PyStr.Ignore (received io) with
  | Ok text => text
  | Raise _ => ""
  end.

(** Every byte is below 128. *)
Fixpoint all_ascii (bytes : string) : bool :=
  match bytes with
  | EmptyString => true
  | String c rest => (PyStr.byte c <? 128)%N && all_ascii rest
  end.

(** The texts of a list, one after the other. *)
Definition joined (texts : list string) : string :=
  fold_right String.append "" texts.

(** What [send_cmd] returns for the bytes that arrived. *)
Definition reply_of (bytes : string) : option string :=
  match bytes with
  | EmptyString => None
  | _ =>
    match PyStr.decode PyStr.Ignore bytes with
    | Ok text => Some (PyStr.strip text)
    | Raise _ => None
    end
  end.

(** * Properties *)

(** ** Renderings on sample values *)

Example repr_1013_25 : PyNum.repr (PyNum.round2 (1013.25)%Q) = "1013.25".
Proof. reflexivity. Qed.

Example repr_small : PyNum.repr (PyNum.round2 (-0.001)%Q) = "-0.0".
Proof. reflexivity. Qed.

Example fmt_lon : PyNum.format_6f (-98.765432)%Q = "-98.765432".
Proof. reflexivity. Qed.

(** ** Strings *)

Lemma prefix_app (p s : string) :
  String.prefix p s = true <-> exists r, s = p ++ r.
Proof.
  revert s; induction p as [|c p IH]; intros s.
  - split; [intros _; exists s; reflexivity | intros _; destruct s; reflexivity].
  - destruct s as [|d s]; simpl.
    + split; [discriminate | intros [r H]; discriminate].
    + destruct (ascii_dec c d) as [->|ne].
      * rewrite IH. split; intros [r H]; exists r; congruence.
      * split; [discriminate | intros [r H]; congruence].
Qed.

Lemma contains_app (sub s : string) :
  PyStr.contains sub s = true <-> exists a b, s = a ++ sub ++ b.
Proof.
  induction s as [|c s IH]; cbn [PyStr.contains].
  - rewrite orb_false_r, prefix_app. split.
    + intros [r H]. exists "", r. exact H.
    + intros [a [b H]]. destruct a; simpl in H; [exists b; exact H | discriminate].
  - rewrite orb_true_iff, prefix_app, IH. split.
    + intros [[r H] | [a [b H]]].
      * exists "", r. exact H.
      * exists (String c a), b. simpl. congruence.
    + intros [a [b H]]. destruct a as [|d a]; simpl in H.
      * left. exists b. exact H.
      * right. exists a, b. congruence.
Qed.

Lemma truthy_nonempty (s : string) : PyStr.truthy s = true <-> s <> "".
Proof. destruct s; simpl; split; congruence. Qed.

Lemma keep_ok (cs : string) (r : result string) :
  raises r = false -> raises (PyStr.keep cs r) = false.
Proof. destruct r; simpl; congruence. Qed.

(** Decoding with [errors='ignore'] never raises. *)
Lemma decode_ignore_bounded (n : nat) :
  forall s, (String.length s <= n)%nat ->
            raises (PyStr.decode PyStr.Ignore s) = false.
Proof.
  induction n as [|n IH]; intros s Hn.
  - destruct s; [reflexivity | simpl in Hn; lia].
  - destruct s as [|c0 s1]; [reflexivity|].
    simpl in Hn. cbn [PyStr.decode].
    assert (H1 : raises (PyStr.decode PyStr.Ignore s1) = false)
      by (apply IH; lia).
    repeat match goal with
           | |- raises (if ?b then _ else _) = false => destruct b
           | |- raises (PyStr.keep _ _) = false => apply keep_ok
           | |- raises (PyStr.bad PyStr.Ignore _) = false => cbn [PyStr.bad]
           | |- raises (Ok _) = false => reflexivity
           | |- raises (PyStr.decode PyStr.Ignore _) = false =>
             solve [exact H1 | apply IH; simpl in *; lia]
           | |- raises (match ?s with EmptyString => _ | String _ _ => _ end)
                = false => destruct s; simpl in Hn
           end.
Qed.

Lemma decode_ignore_total (bytes : string) :
  exists text, PyStr.decode PyStr.Ignore bytes = Ok text.
Proof.
  pose proof (decode_ignore_bounded (String.length bytes) bytes (le_n _)) as H.
  destruct (PyStr.decode PyStr.Ignore bytes) as [text|e];
    [exists text; reflexivity | discriminate].
Qed.

(** The strict decoder does raise on the same input. *)
Example decode_strict_raises :
  PyStr.decode PyStr.Strict (String "255" "OK") = Raise UnicodeError /\
  PyStr.decode PyStr.Ignore (String "255" "OK") = Ok "OK".
Proof. split; reflexivity. Qed.

(** ** Opening a peripheral *)

(** The barometer initialiser returns [None] when the constructor raises:
    its local is bound before the [try]. *)
Lemma init_bmp_open_failure (e : exn) (c : result unit) (sda scl : Z)
      (s : state) :
  init_bmp (Raise e) c sda scl s = (Ok None, set_BMP_INITIALIZED false s).
Proof. reflexivity. Qed.

Lemma init_sd_card_mount_failure (e : exn) (w : result unit)
      (a b c d f : Z) (s : state) :
  init_sd_card (Raise e) w a b c d f s = (Ok None, set_SD_INITIALIZED false s).
Proof. reflexivity. Qed.

(** C2.  When the UART constructor raises, [init_transmitter] and
    [init_gps] clear their flag and then raise themselves: the [return]
    reads a local that was never assigned.  Neither returns to its
    caller. *)
Theorem init_uart_open_failure_raises (e : exn) (tx_pin rx_pin : Z)
        (s : state) :
  init_transmitter (Raise e) tx_pin rx_pin s
  = (Raise (UnboundLocalError "uart_transmitter"),
     set_TRANSMITTER_INITIALIZED false s)
  /\ init_gps (Raise e) tx_pin rx_pin s
     = (Raise (UnboundLocalError "gps_module"), set_GPS_INITIALIZED false s).
Proof. split; reflexivity. Qed.

(** A transmitter that cannot be opened at start-up ends the program
    before the loop is entered. *)
Lemma startup_open_failure (b : boot_env) (e : exn) :
  boot_tx_open b = Raise e ->
  fst (startup b initial) = Raise (UnboundLocalError "uart_transmitter").
Proof. intros H. unfold startup, bind, init_transmitter, try_except, call.
       rewrite H. reflexivity. Qed.

(** ** Acknowledgement *)

(** C6.  The test of line 244 holds exactly when a response was received
    that contains "+OK" or equals "OK"; "+OK=2,5" is acknowledged,
    "ERROR" and no response are not. *)
Theorem acknowledged_iff :
  (forall response,
      acknowledged response = true <->
      exists r, response = Some r /\
                ((exists a b, r = a ++ "+OK" ++ b) \/ r = "OK"))
  /\ acknowledged (Some "+OK=2,5") = true
  /\ acknowledged (Some "ERROR") = false
  /\ acknowledged None = false.
Proof.
  split; [|repeat split; reflexivity].
  intros [r|]; cbn [acknowledged].
  - rewrite andb_true_iff, orb_true_iff, contains_app, String.eqb_eq,
      truthy_nonempty.
    split.
    + intros [_ H]. exists r. split; [reflexivity | exact H].
    + intros [r' [E H]]. injection E as <-. split; [|exact H].
      destruct H as [[a [b ->]] | ->]; [destruct a|]; discriminate.
  - split; [discriminate | intros [r [E _]]; discriminate].
Qed.

(** ** The response of [send_cmd] *)



(** ** The GPS read *)





(** ** Frame rules: what a statement leaves alone *)

Section Frame.

Context {B : Type} (f : state -> B).

Lemma keeps_ret {A} (a : A) : keeps f (ret a).
Proof. intros s. reflexivity. Qed.

Lemma keeps_throw {A} (e : exn) : keeps f (@throw A e).
Proof. intros s. reflexivity. Qed.

Lemma keeps_get {A} (g : state -> A) : keeps f (get g).
Proof. intros s. reflexivity. Qed.

Lemma keeps_call {A} (r : result A) : keeps f (call r).
Proof. intros s. reflexivity. Qed.

Lemma keeps_name {A} (n : string) (g : state -> var A) : keeps f (name n g).
Proof. intros s. unfold name. destruct (g s); reflexivity. Qed.

Lemma keeps_local {A} (n : string) (v : var A) : keeps f (local n v).
Proof. intros s. destruct v; reflexivity. Qed.

Lemma keeps_attribute {A} (a : string) (o : option device) (r : result A) :
  keeps f (attribute a o r).
Proof. intros s. destruct o; reflexivity. Qed.

Lemma keeps_modify (g : state -> state) :
  (forall s, f (g s) = f s) -> keeps f (modify g).
Proof. intros H s. apply H. Qed.

Lemma keeps_bind {A C} (c : M A) (k : A -> M C) :
  keeps f c -> (forall a, keeps f (k a)) -> keeps f (bind c k).
Proof.
  intros Hc Hk s. unfold bind. specialize (Hc s).
  destruct (c s) as [[a|e] s1]; cbn [snd] in *; [|exact Hc].
  rewrite Hk. exact Hc.
Qed.

Lemma keeps_try {A} (c : M A) (h : exn -> M A) :
  keeps f c -> (forall e, keeps f (h e)) -> keeps f (try_except c h).
Proof.
  intros Hc Hh s. unfold try_except. specialize (Hc s).
  destruct (c s) as [[a|e] s1]; cbn [snd] in *; [exact Hc|].
  rewrite Hh. exact Hc.
Qed.

End Frame.

Ltac frame :=
  repeat first
    [ apply keeps_bind; [|intros ?]
    | apply keeps_try; [|intros ?]
    | apply keeps_ret
    | apply keeps_throw
    | apply keeps_get
    | apply keeps_call
    | apply keeps_name
    | apply keeps_local
    | apply keeps_attribute
    | apply keeps_modify; intros ?; reflexivity
    | match goal with
      | |- keeps _ (if ?b then _ else _) => destruct b
      | |- keeps _ (match ?x with _ => _ end) => destruct x
      end ].

(** [send_cmd] only adds to the radio stream. *)
Section RadioFrame.

Context {B : Type} (f : state -> B).
Hypothesis f_radio : forall bytes s, f (push_radio bytes s) = f s.

Lemma send_cmd_keeps (io : uart_io) (u : device) (cmd : string) (w : bool) :
  keeps f (send_cmd io u cmd w).
Proof.
  unfold send_cmd.
  apply keeps_bind; [frame|intros _].
  apply keeps_bind; [apply keeps_modify, f_radio|intros _].
  frame.
Qed.

Lemma configure_keeps (io : nat -> uart_io) (cmds : list string) :
  forall i, keeps f (configure io i cmds).
Proof.
  induction cmds as [|c rest IH]; intros i; cbn [configure].
  - frame.
  - apply keeps_bind; [frame|intros u].
    apply keeps_bind; [apply send_cmd_keeps|intros _]. apply IH.
Qed.

End RadioFrame.

(** Only line 209 touches the counter. *)
Lemma after_count_keeps_packet (env : cycle_env) :
  keeps packet
        (retry_transmitter env ;; read_bmp env ;; read_gps env ;;
         assemble_msg ;; assemble_sd_line ;; log_and_send env).
Proof.
  unfold retry_transmitter, init_transmitter, read_bmp, read_gps,
    assemble_msg, assemble_sd_line, log_and_send, write_to_sd, transmit,
    send_cmd.
  frame.
Qed.

Lemma bind_assoc {A B C} (c : M A) (k : A -> M B) (h : B -> M C) (s : state) :
  bind (bind c k) h s = bind c (fun a => bind (k a) h) s.
Proof.
  unfold bind. destruct (c s) as [[a|e] s1]; reflexivity.
Qed.

Lemma bind_ext {A B} (c : M A) (k k' : A -> M B) (s : state) :
  (forall a s1, k a s1 = k' a s1) -> bind c k s = bind c k' s.
Proof.
  intros H. unfold bind. destruct (c s) as [[a|e] s1]; [apply H|reflexivity].
Qed.

Lemma cycle_unfold (env : cycle_env) (s : state) :
  cycle env s
  = (retry_transmitter env ;; read_bmp env ;; read_gps env ;;
     assemble_msg ;; assemble_sd_line ;; log_and_send env)
      (set_packet (packet s + 1) s).
Proof.
  unfold cycle, acquire. rewrite bind_assoc.
  unfold bind at 1, modify at 1.
  repeat (rewrite bind_assoc; apply bind_ext; intros ? ?).
  reflexivity.
Qed.

Lemma cycle_packet (env : cycle_env) (s : state) :
  packet (snd (cycle env s)) = packet s + 1.
Proof.
  rewrite cycle_unfold, after_count_keeps_packet. reflexivity.
Qed.

(** ** Running a statement forward *)

Section Exec.

Context {A B : Type} (k : A -> M B) (s : state).

Lemma exec_ret (a : A) : bind (ret a) k s = k a s.
Proof. reflexivity. Qed.

Lemma exec_throw (e : exn) : bind (throw e) k s = (Raise e, s).
Proof. reflexivity. Qed.

Lemma exec_get (f : state -> A) : bind (get f) k s = k (f s) s.
Proof. reflexivity. Qed.

Lemma exec_call_ok (a : A) : bind (call (Ok a)) k s = k a s.
Proof. reflexivity. Qed.

Lemma exec_call_raise (e : exn) : bind (call (Raise e)) k s = (Raise e, s).
Proof. reflexivity. Qed.

Lemma exec_name (n : string) (f : state -> var A) (a : A) :
  f s = Bound a -> bind (name n f) k s = k a s.
Proof. intros H. unfold bind, name. rewrite H. reflexivity. Qed.

Lemma exec_unbound (n : string) (f : state -> var A) :
  f s = Unbound -> bind (name n f) k s = (Raise (NameError n), s).
Proof. intros H. unfold bind, name. rewrite H. reflexivity. Qed.

Lemma exec_attribute (a : string) (d : device) (r : result A) :
  bind (attribute a (Some d) r) k s = bind (call r) k s.
Proof. reflexivity. Qed.

Lemma exec_run (c : M A) (a : A) (s1 : state) :
  c s = (Ok a, s1) -> bind c k s = k a s1.
Proof. intros H. unfold bind. rewrite H. reflexivity. Qed.

Lemma exec_abort (c : M A) (e : exn) (s1 : state) :
  c s = (Raise e, s1) -> bind c k s = (Raise e, s1).
Proof. intros H. unfold bind. rewrite H. reflexivity. Qed.

End Exec.

Lemma exec_modify {B} (f : state -> state) (k : unit -> M B) (s : state) :
  bind (modify f) k s = k tt (f s).
Proof. reflexivity. Qed.

(** A normal return of [c ;; k] is a normal return of both. *)
Lemma bind_returns {A B} (c : M A) (k : A -> M B) (s s' : state) (b : B) :
  bind c k s = (Ok b, s') ->
  exists a s1, c s = (Ok a, s1) /\ k a s1 = (Ok b, s').
Proof.
  unfold bind. destruct (c s) as [[a|e] s1]; [eauto|discriminate].
Qed.

Lemma keeps_at {A B} (f : state -> B) (c : M A) (s s' : state)
      (r : result A) :
  keeps f c -> c s = (r, s') -> f s' = f s.
Proof. intros K H. specialize (K s). rewrite H in K. exact K. Qed.

Ltac fields :=
  cbn [negb fst snd
       TRANSMITTER_INITIALIZED GPS_INITIALIZED BMP_INITIALIZED SD_INITIALIZED
       uart_transmitter gps bmp sd_card packet altitude pressure gps_data
       msg sd_line response flight_data radio_out
       set_TRANSMITTER_INITIALIZED set_GPS_INITIALIZED set_BMP_INITIALIZED
       set_SD_INITIALIZED set_uart_transmitter set_gps set_bmp set_sd_card
       set_packet set_altitude set_pressure set_gps_data set_msg set_sd_line
       set_response set_flight_data set_radio_out append_file push_radio].

Ltac known :=
  repeat match goal with
         | H : ?l = _ |- context [?l] => rewrite H
         end.

Ltac exec :=
  repeat (first [ rewrite bind_assoc
                | rewrite exec_ret
                | rewrite exec_throw
                | rewrite exec_get
                | rewrite exec_modify
                | rewrite exec_call_ok
                | rewrite exec_call_raise
                | rewrite exec_attribute
                | erewrite exec_name by (fields; known; reflexivity)
                | rewrite exec_unbound by (fields; known; reflexivity) ];
          fields; known; fields).

Lemma get_gps_data_ok (rx : nat -> uart_io) (parse : string -> result GPSData) :
  exists r, get_gps_data rx parse = Ok r.
Proof.
  unfold get_gps_data.
  destruct (get_gps_data_body rx parse) as [r|e]; eauto.
Qed.

(** ** States the loop can be in *)

Lemma after_retry_keeps_handles (env : cycle_env) :
  keeps handles
        (read_bmp env ;; read_gps env ;; assemble_msg ;; assemble_sd_line ;;
         log_and_send env).
Proof.
  unfold read_bmp, read_gps, assemble_msg, assemble_sd_line, log_and_send,
    write_to_sd, transmit, send_cmd.
  frame.
Qed.

Lemma cycle_ready_unfold (env : cycle_env) (s : state) :
  TRANSMITTER_INITIALIZED s = true ->
  cycle env s
  = (read_bmp env ;; read_gps env ;; assemble_msg ;; assemble_sd_line ;;
     log_and_send env) (set_packet (packet s + 1) s).
Proof.
  intros Ht. rewrite cycle_unfold. unfold retry_transmitter. exec.
  reflexivity.
Qed.

(** Without a barometer the body stops at line 233: [pressure] was never
    assigned. *)
Lemma cycle_without_bmp (env : cycle_env) (s : state) :
  loop_ready s -> BMP_INITIALIZED s = false ->
  exists r,
    get_gps_data (gps_rx env) (parse_gps_data env) = Ok r /\
    cycle env s
    = (Raise (NameError "pressure"),
       set_gps_data (Bound r)
         (set_altitude (Bound None) (set_packet (packet s + 1) s))).
Proof.
  intros (Ht & Hg & _ & [g Hgps] & Hb) Hf. rewrite Hf in Hb.
  destruct (get_gps_data_ok (gps_rx env) (parse_gps_data env)) as [r Hr].
  exists r. split; [exact Hr|].
  rewrite cycle_ready_unfold by exact Ht.
  unfold read_bmp, read_gps, assemble_msg. exec. reflexivity.
Qed.

Lemma cycle_ready (env : cycle_env) (s s' : state) (r : report) :
  loop_ready s -> cycle env s = (Ok r, s') -> loop_ready s'.
Proof.
  intros R H.
  destruct (BMP_INITIALIZED s) eqn:Hb.
  - pose proof R as (Ht & Hg & Hu & Hgps & Hbmp).
    rewrite cycle_ready_unfold in H by exact Ht.
    pose proof (keeps_at handles _ _ _ _ (after_retry_keeps_handles env) H)
      as K.
    unfold handles in K; fields. cbn [handles] in K.
    injection K as K1 K2 K3 K4 K5 K6 K7 K8.
    unfold loop_ready. rewrite K1, K2, K3, K5, K6, K7.
    fields. rewrite Hb in *. repeat split; assumption.
  - destruct (cycle_without_bmp env s R Hb) as [g [_ E]].
    rewrite E in H. discriminate.
Qed.

Lemma init_transmitter_ok (tx_pin rx_pin : Z) (s : state) :
  init_transmitter (Ok tt) tx_pin rx_pin s
  = (Ok (UART 0 115200 tx_pin rx_pin), set_TRANSMITTER_INITIALIZED true s).
Proof. reflexivity. Qed.

Lemma init_gps_ok (tx_pin rx_pin : Z) (s : state) :
  init_gps (Ok tt) tx_pin rx_pin s
  = (Ok (UART 1 9600 tx_pin rx_pin), set_GPS_INITIALIZED true s).
Proof. reflexivity. Qed.

Lemma init_transmitter_raise (e : exn) (tx_pin rx_pin : Z) (s : state) :
  init_transmitter (Raise e) tx_pin rx_pin s
  = (Raise (UnboundLocalError "uart_transmitter"),
     set_TRANSMITTER_INITIALIZED false s).
Proof. reflexivity. Qed.

Lemma init_gps_raise (e : exn) (tx_pin rx_pin : Z) (s : state) :
  init_gps (Raise e) tx_pin rx_pin s
  = (Raise (UnboundLocalError "gps_module"), set_GPS_INITIALIZED false s).
Proof. reflexivity. Qed.

Lemma init_sd_card_returns (m w : result unit) (a b c d f : Z) (s : state) :
  exists v s1, init_sd_card m w a b c d f s = (Ok v, s1).
Proof.
  destruct m as [[]|e]; [destruct w as [[]|e]|]; eexists; eexists;
    reflexivity.
Qed.


Lemma init_sd_card_keeps_core (m w : result unit) (a b c d f : Z) :
  keeps core (init_sd_card m w a b c d f).
Proof. unfold init_sd_card. frame. Qed.

Lemma startup_outcome (b : boot_env) :
  match startup b initial with
  | (Ok _, s) => loop_ready s /\ packet s = 0
  | (Raise _, _) => True
  end.
Proof.
  unfold startup.
  destruct (boot_tx_open b) as [[]|e];
    [rewrite (exec_run _ _ _ _ _ (init_transmitter_ok 0 1 initial))
    |rewrite (exec_abort _ _ _ _ _ (init_transmitter_raise e 0 1 initial));
     exact I].
  exec.
  destruct (boot_gps_open b) as [[]|e];
    [erewrite exec_run by apply init_gps_ok
    |erewrite exec_abort by apply init_gps_raise; exact I].
  exec.
  match goal with
  | |- context [bind (init_bmp ?o ?c 12 13) ?k ?s] =>
    assert (Hb : exists v fl,
               init_bmp o c 12 13 s = (Ok v, set_BMP_INITIALIZED fl s) /\
               (fl = true -> exists d, v = Some d))
      by (destruct o as [[]|?]; [destruct c as [[]|?]|];
          eexists; eexists; (split; [reflexivity|]);
          intros; try discriminate; eauto)
  end.
  destruct Hb as (v & fl & Hb & Hv).
  rewrite (exec_run _ _ _ _ _ Hb). exec.
  match goal with
  | |- context [bind (init_sd_card ?m ?w ?a ?b ?c ?d ?f) ?k ?s] =>
    destruct (init_sd_card_returns m w a b c d f s) as (sd & s1 & Hsd);
      pose proof (keeps_at core _ _ _ _
                           (init_sd_card_keeps_core m w a b c d f) Hsd) as K
  end.
  rewrite (exec_run _ _ _ _ _ Hsd). exec.
  cbn [core] in K; fields. cbn [core TRANSMITTER_INITIALIZED GPS_INITIALIZED
    BMP_INITIALIZED uart_transmitter gps bmp pressure packet initial
    set_BMP_INITIALIZED set_bmp set_gps set_GPS_INITIALIZED
    set_uart_transmitter set_TRANSMITTER_INITIALIZED] in K.
  injection K as K1 K2 K3 K4 K5 K6 K7 K8.
  rewrite K3.
  assert (Hre : exists s2 r, (r = Ok tt \/ exists e, r = Raise e) /\
            forall k : unit -> M unit,
              bind (if fl then
                      o' <- name "bmp" bmp ;;
                      attribute "sea_level_pressure" o'
                                (boot_bmp_recalibrate b)
                    else ret tt) k (set_sd_card (Bound sd) s1)
              = match r with
                | Ok _ => k tt (set_sd_card (Bound sd) s1)
                | Raise e => (Raise e, s2)
                end).
  { destruct fl.
    - destruct (Hv eq_refl) as [d ->].
      destruct (boot_bmp_recalibrate b) as [[]|e] eqn:Hr.
      + exists s1, (Ok tt). split; [left; reflexivity|]. intros k.
        exec. reflexivity.
      + exists (set_sd_card (Bound sd) s1), (Raise e).
        split; [right; eauto|]. intros k. exec. reflexivity.
    - exists s1, (Ok tt). split; [left; reflexivity|]. intros k. exec.
      reflexivity. }
  destruct Hre as (s2 & r & [-> | [e ->]] & Hre); rewrite Hre; [|exact I].
  match goal with
  | |- context [bind (configure ?io 0 ?cmds) ?k ?s] =>
    destruct (configure io 0 cmds s) as [[[]|e] s3] eqn:Hc;
      [rewrite (exec_run _ _ _ _ _ Hc)
      |rewrite (exec_abort _ _ _ _ _ Hc); exact I];
      pose proof (keeps_at core _ _ _ _
                    (configure_keeps core (fun _ _ => eq_refl) io cmds 0) Hc)
        as C
  end.
  cbn [core] in C; fields. cbn [core TRANSMITTER_INITIALIZED GPS_INITIALIZED
    BMP_INITIALIZED uart_transmitter gps bmp pressure packet set_sd_card]
    in C.
  injection C as C1 C2 C3 C4 C5 C6 C7 C8.
  unfold modify, loop_ready. fields.
  rewrite C1, C2, C3, C4, C5, C6, C7, K1, K2, K3, K4, K5, K6, K7.
  repeat split; eauto.
  destruct fl; [|reflexivity]. destruct (Hv eq_refl) as [d ->]. eauto.
Qed.

Lemma startup_ready (b : boot_env) (s : state) :
  startup b initial = (Ok tt, s) -> loop_ready s /\ packet s = 0.
Proof.
  intros H. pose proof (startup_outcome b) as O. rewrite H in O. exact O.
Qed.

Lemma reachable_ready (s : state) : reachable s -> loop_ready s.
Proof.
  induction 1 as [b s H | env s r s' _ IH H].
  - apply (startup_ready b s H).
  - exact (cycle_ready env s s' r IH H).
Qed.

(** ** What a completed acquisition leaves behind *)

Lemma truthy_app (a b : string) :
  PyStr.truthy (a ++ b) = PyStr.truthy a || PyStr.truthy b.
Proof. destruct a; [reflexivity|reflexivity]. Qed.

Lemma format_fix_nonempty (d : GPSData) : PyStr.truthy (format_fix d) = true.
Proof.
  unfold format_fix. rewrite !truthy_app. cbn [PyStr.truthy].
  rewrite orb_true_r. reflexivity.
Qed.

(** A fix is never the empty string, so lines 233 and 238 render
    [gps_data] alike. *)
Lemma get_gps_data_rendering (rx : nat -> uart_io)
      (parse : string -> result GPSData) (g : option string) :
  get_gps_data rx parse = Ok g -> gps_or_none g = str_gps g.
Proof.
  unfold get_gps_data, get_gps_data_body.
  destruct (collect rx 0 6 "") as [raw|e].
  - destruct (0 <? PyStr.len raw).
    + destruct (parse raw) as [d|e].
      * destruct (has_fix d); intros E; injection E as <-;
          [|reflexivity]. cbn [gps_or_none str_gps].
        rewrite format_fix_nonempty. reflexivity.
      * intros E; injection E as <-; reflexivity.
    + intros E; injection E as <-; reflexivity.
  - intros E; injection E as <-; reflexivity.
Qed.

Lemma read_gps_outcome (env : cycle_env) (s : state) :
  match read_gps env s with
  | (Ok _, s1) =>
    exists g, s1 = set_gps_data (Bound g) s /\ gps_or_none g = str_gps g
  | (Raise _, _) => True
  end.
Proof.
  unfold read_gps. exec. destruct (GPS_INITIALIZED s).
  - destruct (gps s) as [|d] eqn:Hg; exec; [exact I|].
    destruct (get_gps_data (gps_rx env) (parse_gps_data env)) as [g|e] eqn:E;
      exec; [|exact I].
    exists g. split; [reflexivity|].
    exact (get_gps_data_rendering _ _ _ E).
  - exists None. split; reflexivity.
Qed.

Lemma assemble_msg_outcome (s : state) :
  match assemble_msg s with
  | (Ok _, s1) =>
    exists p a g,
      pressure s = Bound p /\ altitude s = Bound a /\ gps_data s = Bound g /\
      s1 = set_msg (Bound (PyNum.str_int (packet s) ++ "#" ++ PyNum.repr p ++
                           "#" ++ PyNum.str_opt a ++ "#" ++ str_gps g)) s
  | (Raise _, _) => True
  end.
Proof.
  unfold assemble_msg. exec.
  destruct (pressure s) as [|p] eqn:Hp; exec; [exact I|].
  destruct (altitude s) as [|a] eqn:Ha; exec; [exact I|].
  destruct (gps_data s) as [|g] eqn:Hg; exec; [exact I|].
  exists p, a, g. repeat split; reflexivity.
Qed.

Lemma assemble_sd_line_outcome (s : state) :
  match assemble_sd_line s with
  | (Ok _, s1) =>
    exists p a g,
      pressure s = Bound p /\ altitude s = Bound a /\ gps_data s = Bound g /\
      s1 = set_sd_line
             (Bound (PyNum.str_int (packet s) ++ "#" ++ PyNum.repr p ++
                     "#" ++ PyNum.str_opt a ++ "#" ++ gps_or_none g)) s
  | (Raise _, _) => True
  end.
Proof.
  unfold assemble_sd_line. exec.
  destruct (pressure s) as [|p] eqn:Hp; exec; [exact I|].
  destruct (altitude s) as [|a] eqn:Ha; exec; [exact I|].
  destruct (gps_data s) as [|g] eqn:Hg; exec; [exact I|].
  exists p, a, g. repeat split; reflexivity.
Qed.

Lemma before_gps_keeps_packet (env : cycle_env) :
  keeps packet (retry_transmitter env) /\ keeps packet (read_bmp env).
Proof.
  split; unfold retry_transmitter, init_transmitter, read_bmp; frame.
Qed.

(** The record of a cycle whose lines 209-238 completed. *)
Lemma acquire_returns (env : cycle_env) (s s1 : state) :
  acquire env s = (Ok tt, s1) ->
  exists p a g,
    packet s1 = packet s + 1 /\
    pressure s1 = Bound p /\ altitude s1 = Bound a /\
    gps_data s1 = Bound g /\
    msg s1 = Bound (PyNum.str_int (packet s + 1) ++ "#" ++ PyNum.repr p ++
                    "#" ++ PyNum.str_opt a ++ "#" ++ str_gps g) /\
    sd_line s1 = msg s1.
Proof.
  unfold acquire. intros H.
  apply bind_returns in H as ([] & sa & Ha & H).
  apply bind_returns in H as ([] & sb & Hb & H).
  apply bind_returns in H as ([] & sc & Hc & H).
  apply bind_returns in H as ([] & sd & Hd & H).
  apply bind_returns in H as ([] & se & He & H).
  unfold modify in Ha. injection Ha as <-.
  pose proof (keeps_at packet _ _ _ _ (proj1 (before_gps_keeps_packet env)) Hb)
    as Pb.
  pose proof (keeps_at packet _ _ _ _ (proj2 (before_gps_keeps_packet env)) Hc)
    as Pc.
  pose proof (read_gps_outcome env sc) as Og. rewrite Hd in Og.
  destruct Og as (g & -> & Hg).
  pose proof (assemble_msg_outcome (set_gps_data (Bound g) sc)) as Om.
  rewrite He in Om. destruct Om as (p & a & g' & Hp & Hal & Hg' & ->).
  pose proof (assemble_sd_line_outcome
                (set_msg (Bound (PyNum.str_int (packet (set_gps_data (Bound g) sc)) ++ "#" ++ PyNum.repr p ++
                           "#" ++ PyNum.str_opt a ++ "#" ++ str_gps g'))
                         (set_gps_data (Bound g) sc))) as Ol.
  rewrite H in Ol. destruct Ol as (p2 & a2 & g2 & Hp2 & Ha2 & Hg2 & ->).
  cbn [pressure altitude gps_data packet set_msg set_gps_data] in *.
  injection Hg' as <-. injection Hg2 as <-.
  rewrite Hp in Hp2. injection Hp2 as <-.
  rewrite Hal in Ha2. injection Ha2 as <-.
  exists p, a, g. fields. rewrite Pc, Pb. fields. rewrite Hg.
  repeat split; assumption || reflexivity.
Qed.

Lemma log_and_send_keeps_record (env : cycle_env) :
  keeps (fun s => (packet s, pressure s, altitude s, gps_data s, msg s,
                   sd_line s))
        (log_and_send env).
Proof.
  unfold log_and_send, write_to_sd, transmit, send_cmd. frame.
Qed.

Lemma cycle_returns (env : cycle_env) (s s' : state) (r : report) :
  cycle env s = (Ok r, s') ->
  exists p a g,
    packet s' = packet s + 1 /\
    pressure s' = Bound p /\ altitude s' = Bound a /\
    gps_data s' = Bound g /\
    msg s' = Bound (PyNum.str_int (packet s + 1) ++ "#" ++ PyNum.repr p ++
                    "#" ++ PyNum.str_opt a ++ "#" ++ str_gps g) /\
    sd_line s' = msg s'.
Proof.
  unfold cycle. intros H.
  apply bind_returns in H as ([] & s1 & Ha & H).
  pose proof (keeps_at _ _ _ _ _ (log_and_send_keeps_record env) H) as K.
  injection K as -> -> -> -> -> ->.
  exact (acquire_returns env s s1 Ha).
Qed.


Lemma reachable_run (envs : list cycle_env) :
  forall s,
    reachable s ->
    forallb (fun o => negb (raises (fst o))) (loop envs s) = true ->
    reachable (run envs s).
Proof.
  induction envs as [|env rest IH]; intros s R H; cbn [run]; [exact R|].
  cbn [loop forallb] in H. apply andb_true_iff in H as [H1 H2].
  destruct (cycle env s) as [[r|e] s'] eqn:E; cbn [fst snd raises negb] in *;
    [|discriminate].
  apply IH; [exact (reach_cycle env s r s' R E) | exact H2].
Qed.

Lemma reachable_booted : reachable booted.
Proof. apply (reach_startup boot_ok). vm_compute. reflexivity. Qed.

Lemma reachable_booted_no_bmp : reachable booted_no_bmp.
Proof. apply (reach_startup boot_no_bmp). vm_compute. reflexivity. Qed.

Lemma reachable_booted_no_sd : reachable booted_no_sd.
Proof. apply (reach_startup boot_no_sd). vm_compute. reflexivity. Qed.

(** ** The loop under failures *)

(** Storage and GPS failures are absorbed: with the barometer and the
    radio answering, the iteration completes whatever the GPS UART, the
    parser and the file system do. *)
Lemma cycle_completes (env : cycle_env) (s : state) (a p : Q) (n : N)
      (bytes : option string) :
  reachable s -> BMP_INITIALIZED s = true ->
  bmp_altitude env = Ok a -> bmp_pressure env = Ok p ->
  io_write (tx_io env) = Ok tt -> io_any (tx_io env) = Ok n ->
  io_read (tx_io env) = Ok bytes ->
  raises (fst (cycle env s)) = false.
Proof.
  intros R Hb Ha Hp Hw Hn Hr.
  destruct (reachable_ready s R) as (Ht & Hg & [u Hu] & [g Hgps] & Hbmp).
  rewrite Hb in Hbmp. destruct Hbmp as [d Hd].
  destruct (get_gps_data_ok (gps_rx env) (parse_gps_data env)) as [fx Hfx].
  rewrite cycle_ready_unfold by exact Ht.
  unfold read_bmp, read_gps, assemble_msg, assemble_sd_line, log_and_send.
  exec.
  match goal with
  | |- context [bind (write_to_sd ?w ?l) ?k ?s0] =>
    assert (W : exists b s1,
               write_to_sd w l s0 = (Ok b, s1) /\
               uart_transmitter s1 = Bound u /\
               msg s1 = msg s0)
  end.
  { unfold write_to_sd. exec.
    destruct (SD_INITIALIZED s); fields.
    - unfold try_except.
      destruct (sd_write env) as [[]|e]; exec;
        eexists; eexists; (split; [reflexivity|]); fields; split;
          try assumption; reflexivity.
    - eexists; eexists; (split; [reflexivity|]); fields; split;
        try assumption; reflexivity. }
  destruct W as (b & s1 & W & Hu1 & Hm1). cbn [msg set_sd_line set_msg] in Hm1.
  rewrite (exec_run _ _ _ _ _ W).
  unfold transmit, send_cmd. exec.
  destruct (n =? 0)%N; exec; [reflexivity|].
  destruct bytes as [bytes|]; exec; [|reflexivity].
  destruct (PyStr.truthy bytes); exec; [|reflexivity].
  destruct (decode_ignore_total bytes) as [text ->]. exec. reflexivity.
Qed.

(** C1.  An iteration in which reading the barometer raises does not
    complete: the exception leaves the loop body right after the counter
    was incremented, and no later iteration runs. *)
Theorem barometer_error_ends_loop (env : cycle_env) (rest : list cycle_env)
        (s : state) (e : exn) :
  reachable s -> BMP_INITIALIZED s = true -> bmp_altitude env = Raise e ->
  loop (env :: rest) s = [(Raise e, set_packet (packet s + 1) s)].
Proof.
  intros R Hb Ha.
  destruct (reachable_ready s R) as (Ht & _ & _ & _ & Hbmp).
  rewrite Hb in Hbmp. destruct Hbmp as [d Hd].
  cbn [loop]. rewrite cycle_ready_unfold by exact Ht.
  unfold read_bmp. exec. reflexivity.
Qed.

Lemma barometer_error_ends_loop_witness :
  loop [cycle_bmp_fault; cycle_ok] booted
  = [(Raise (OSError 5), set_packet (packet booted + 1) booted)].
Proof.
  apply barometer_error_ends_loop.
  - exact reachable_booted.
  - reflexivity.
  - reflexivity.
Defined.

(** The radio write is not guarded either. *)
Lemma radio_error_ends_cycle (env : cycle_env) (s : state) (a p : Q)
      (e : exn) :
  reachable s -> BMP_INITIALIZED s = true ->
  bmp_altitude env = Ok a -> bmp_pressure env = Ok p ->
  io_write (tx_io env) = Raise e ->
  fst (cycle env s) = Raise e.
Proof.
  intros R Hb Ha Hp Hw.
  destruct (cycle env s) as [[r|e'] s'] eqn:E.
  - exfalso. unfold cycle in E.
    apply bind_returns in E as ([] & s1 & E1 & E2).
    unfold log_and_send in E2.
    apply bind_returns in E2 as (l & s2 & _ & E2).
    apply bind_returns in E2 as (b & s3 & _ & E2).
    unfold transmit in E2.
    apply bind_returns in E2 as (u & s4 & _ & E2).
    apply bind_returns in E2 as (m & s5 & _ & E2).
    apply bind_returns in E2 as (x & s6 & E3 & _).
    unfold send_cmd in E3. rewrite Hw in E3. discriminate.
  - cbn [fst]. 
    destruct (reachable_ready s R) as (Ht & Hg & [u Hu] & [g Hgps] & Hbmp).
    rewrite Hb in Hbmp. destruct Hbmp as [d Hd].
    destruct (get_gps_data_ok (gps_rx env) (parse_gps_data env)) as [fx Hfx].
    rewrite cycle_ready_unfold in E by exact Ht.
    revert E.
    unfold read_bmp, read_gps, assemble_msg, assemble_sd_line, log_and_send.
    exec.
    match goal with
    | |- context [bind (write_to_sd ?w ?l) ?k ?s0] =>
      assert (W : exists b s1,
                 write_to_sd w l s0 = (Ok b, s1) /\
                 uart_transmitter s1 = Bound u /\
                 msg s1 = msg s0)
    end.
    { unfold write_to_sd. exec.
      destruct (SD_INITIALIZED s); fields.
      - unfold try_except.
        destruct (sd_write env) as [[]|e0]; exec;
          eexists; eexists; (split; [reflexivity|]); fields; split;
            try assumption; reflexivity.
      - eexists; eexists; (split; [reflexivity|]); fields; split;
          try assumption; reflexivity. }
    destruct W as (b & s1 & W & Hu1 & Hm1).
    cbn [msg set_sd_line set_msg] in Hm1.
    rewrite (exec_run _ _ _ _ _ W).
    unfold transmit, send_cmd. exec. intros E. injection E as <- _.
    reflexivity.
Qed.

(** ** The barometer is not ready *)

(** C3.  In an iteration that starts with the barometer not initialised
    no record is assembled: [altitude] is set to [None], [pressure] is
    still unbound, and line 233 raises [NameError] before [msg] is
    assigned. *)
Theorem no_barometer_no_record (env : cycle_env) (s : state) :
  reachable s -> BMP_INITIALIZED s = false ->
  fst (cycle env s) = Raise (NameError "pressure")
  /\ altitude (snd (cycle env s)) = Bound None
  /\ pressure (snd (cycle env s)) = Unbound
  /\ msg (snd (cycle env s)) = msg s
  /\ radio_out (snd (cycle env s)) = radio_out s.
Proof.
  intros R Hb. pose proof (reachable_ready s R) as Rd.
  pose proof Rd as (_ & _ & _ & _ & Hp). rewrite Hb in Hp.
  destruct (cycle_without_bmp env s Rd Hb) as (r & _ & ->).
  fields. repeat split; try reflexivity. exact Hp.
Qed.

Lemma no_barometer_no_record_witness :
  fst (cycle cycle_ok booted_no_bmp) = Raise (NameError "pressure")
  /\ altitude (snd (cycle cycle_ok booted_no_bmp)) = Bound None
  /\ pressure (snd (cycle cycle_ok booted_no_bmp)) = Unbound
  /\ msg (snd (cycle cycle_ok booted_no_bmp)) = msg booted_no_bmp
  /\ radio_out (snd (cycle cycle_ok booted_no_bmp)) = radio_out booted_no_bmp.
Proof.
  apply no_barometer_no_record.
  - exact reachable_booted_no_bmp.
  - reflexivity.
Defined.

(** ** The sequence counter *)

Lemma loop_packet (envs : list cycle_env) :
  forall s k o,
    nth_error (loop envs s) k = Some o ->
    packet (snd o) = packet s + Z.of_nat k + 1.
Proof.
  induction envs as [|env rest IH]; intros s k o H; cbn [loop] in H.
  - destruct k; discriminate.
  - destruct k as [|k]; cbn [nth_error] in H.
    + injection H as <-. rewrite cycle_packet. lia.
    + destruct (fst (cycle env s)); [|destruct k; discriminate].
      rewrite (IH _ _ _ H), cycle_packet. lia.
Qed.

(** C5.  The counter is 0 when the loop is entered; every iteration adds
    exactly 1 to it, whatever the peripherals do and whether or not the
    iteration completes; so iteration [k] (from 0) of the loop carries
    [k + 1]; and that value is the first field of the record the
    iteration assembles. *)
Theorem sequence_counts_cycles :
  (forall b s, startup b initial = (Ok tt, s) -> packet s = 0)
  /\ (forall env s, packet (snd (cycle env s)) = packet s + 1)
  /\ (forall b s envs k o,
         startup b initial = (Ok tt, s) ->
         nth_error (loop envs s) k = Some o ->
         packet (snd o) = Z.of_nat k + 1)
  /\ (forall env s r s',
         cycle env s = (Ok r, s') ->
         exists fields,
           msg s' = Bound (PyNum.str_int (packet s + 1) ++ "#" ++ fields)).
Proof.
  repeat split.
  - intros b s H. exact (proj2 (startup_ready b s H)).
  - exact cycle_packet.
  - intros b s envs k o H N.
    rewrite (loop_packet envs s k o N), (proj2 (startup_ready b s H)). lia.
  - intros env s r s' H.
    destruct (cycle_returns env s s' r H) as (p & a & g & _ & _ & _ & _ & M & _).
    eexists. exact M.
Qed.

Lemma sequence_counts_cycles_witness :
  packet booted = 0
  /\ packet (snd (cycle cycle_bmp_fault booted)) = 1
  /\ (exists o, nth_error (loop [cycle_ok; cycle_fix; cycle_ok] booted) 2
                = Some o /\ packet (snd o) = 3).
Proof.
  destruct sequence_counts_cycles as (H0 & H1 & H2 & _).
  split; [|split].
  - apply (H0 boot_ok). vm_compute. reflexivity.
  - rewrite H1. reflexivity.
  - eexists. split; [vm_compute; reflexivity|].
    apply (H2 boot_ok booted [cycle_ok; cycle_fix; cycle_ok] 2%nat);
      vm_compute; reflexivity.
Defined.

(** ** Storage not mounted *)

Lemma acquire_keeps_storage (env : cycle_env) :
  keeps (fun s => (SD_INITIALIZED s, flight_data s)) (acquire env).
Proof.
  unfold acquire, retry_transmitter, init_transmitter, read_bmp, read_gps,
    assemble_msg, assemble_sd_line.
  frame.
Qed.

Lemma transmit_keeps_storage (env : cycle_env) (b : bool) :
  keeps (fun s => (SD_INITIALIZED s, flight_data s)) (transmit env b).
Proof. unfold transmit, send_cmd. frame. Qed.

Lemma write_to_sd_unmounted (w : result unit) (line : string) (s : state) :
  SD_INITIALIZED s = false -> write_to_sd w line s = (Ok false, s).
Proof. intros H. unfold write_to_sd. exec. reflexivity. Qed.

Lemma cycle_unmounted (env : cycle_env) (s s1 : state) :
  SD_INITIALIZED s = false -> acquire env s = (Ok tt, s1) ->
  cycle env s = transmit env false s1.
Proof.
  intros H A. unfold cycle. rewrite (exec_run _ _ _ _ _ A).
  pose proof (keeps_at _ _ _ _ _ (acquire_keeps_storage env) A) as K.
  injection K as K1 K2. rewrite H in K1.
  destruct (acquire_returns env s s1 A) as (p & a & g & _ & _ & _ & _ & M & L).
  rewrite M in L.
  unfold log_and_send. exec.
  rewrite (exec_run _ _ _ _ _ (write_to_sd_unmounted _ _ s1 K1)).
  reflexivity.
Qed.

(** C8.  With storage not mounted [write_to_sd] returns [False] and
    changes nothing; the log file is the same after the iteration as
    before it; and an iteration that reached line 239 continues with the
    transmit step of lines 243-245, which writes the AT+SEND command to
    the radio. *)
Theorem unmounted_storage_is_skipped (env : cycle_env) (s : state) :
  SD_INITIALIZED s = false ->
  (forall w line, write_to_sd w line s = (Ok false, s))
  /\ flight_data (snd (cycle env s)) = flight_data s
  /\ (forall s1,
         acquire env s = (Ok tt, s1) ->
         cycle env s = transmit env false s1)
  /\ (forall s1 u m,
         acquire env s = (Ok tt, s1) ->
         uart_transmitter s1 = Bound u -> msg s1 = Bound m ->
         io_write (tx_io env) = Ok tt ->
         radio_out (snd (cycle env s))
         = (radio_out s1 ++ [(send_command m ++ crlf)%string])%list).
Proof.
  intros H. split; [|split; [|split]].
  - intros w line. exact (write_to_sd_unmounted w line s H).
  - destruct (acquire env s) as [[[]|e] s1] eqn:A.
    + rewrite (cycle_unmounted env s s1 H A).
      pose proof (keeps_at _ _ _ _ _ (acquire_keeps_storage env) A) as K.
      injection K as _ K.
      pose proof (transmit_keeps_storage env false s1) as T.
      injection T as _ T. congruence.
    + unfold cycle. rewrite (exec_abort _ _ _ _ _ A). cbn [snd].
      pose proof (keeps_at _ _ _ _ _ (acquire_keeps_storage env) A) as K.
      injection K as _ K. exact K.
  - intros s1 A. exact (cycle_unmounted env s s1 H A).
  - intros s1 u m A Hu Hm Hw.
    rewrite (cycle_unmounted env s s1 H A).
    unfold transmit, send_cmd. exec.
    match goal with
    | |- radio_out (snd (bind ?c ?k ?s0)) = _ =>
      assert (K : keeps radio_out (bind c k))
        by (frame); rewrite (K s0)
    end.
    reflexivity.
Qed.

Lemma unmounted_storage_is_skipped_witness :
  flight_data (snd (cycle cycle_ok booted_no_sd)) = flight_data booted_no_sd
  /\ radio_out (snd (cycle cycle_ok booted_no_sd))
     = (radio_out booted_no_sd
        ++ [(send_command "1#1013.25#123.45#None" ++ crlf)%string])%list.
Proof.
  destruct (unmounted_storage_is_skipped cycle_ok booted_no_sd eq_refl)
    as (_ & F & _ & T).
  split; [exact F|].
  apply (T (snd (acquire cycle_ok booted_no_sd)) (UART 0 115200 0 1));
    vm_compute; reflexivity.
Defined.

(** ** The two serialisations *)

(** C4, as stated, fails.  In iteration 3 with no GPS fix the radio
    payload carries the token [None] where the specification has a blank,
    and is the same string as the storage line; and with the barometer
    not ready no storage line is written at all. *)
Lemma radio_payload_renders_none :
  gps_data (snd (cycle cycle_ok after_two)) = Bound None
  /\ msg (snd (cycle cycle_ok after_two)) = Bound "3#1013.25#123.45#None"
  /\ sd_line (snd (cycle cycle_ok after_two))
     = msg (snd (cycle cycle_ok after_two))
  /\ msg (snd (cycle cycle_ok after_two))
     <> Bound (spec_radio_payload 3 (Some (PyNum.round2 (1013.25)%Q))
                                  (Some (PyNum.round2 (123.45)%Q)) None)
  /\ fst (cycle cycle_ok (set_packet 2 booted_no_bmp))
     = Raise (NameError "pressure")
  /\ sd_line (snd (cycle cycle_ok (set_packet 2 booted_no_bmp))) = Unbound.
Proof.
  split; [vm_compute; reflexivity|].
  split; [vm_compute; reflexivity|].
  split; [vm_compute; reflexivity|].
  split; [intros H; vm_compute in H; discriminate|].
  split; vm_compute; reflexivity.
Qed.

(** C4, amended.  Whenever lines 209-238 complete, the radio payload and
    the storage line are the same string: counter, pressure, altitude and
    GPS data joined by [#], an absent altitude or GPS fix written as the
    token [None] in both; and they still are what the iteration leaves
    behind. *)
Theorem payload_equals_storage_line (env : cycle_env) (s s1 : state) :
  acquire env s = (Ok tt, s1) ->
  exists p a g,
    pressure s1 = Bound p /\ altitude s1 = Bound a /\ gps_data s1 = Bound g
    /\ msg s1
       = Bound (PyNum.str_int (packet s + 1) ++ "#" ++ PyNum.repr p ++ "#" ++
                match a with Some x => PyNum.repr x | None => "None" end ++
                "#" ++ match g with Some x => x | None => "None" end)
    /\ sd_line s1 = msg s1
    /\ msg (snd (cycle env s)) = msg s1
    /\ sd_line (snd (cycle env s)) = sd_line s1.
Proof.
  intros A.
  destruct (acquire_returns env s s1 A) as (p & a & g & _ & P & Al & G & M & L).
  exists p, a, g. repeat split; try assumption.
  - unfold cycle. rewrite (exec_run _ _ _ _ _ A).
    pose proof (log_and_send_keeps_record env s1) as K.
    injection K as _ _ _ _ K _. exact K.
  - unfold cycle. rewrite (exec_run _ _ _ _ _ A).
    pose proof (log_and_send_keeps_record env s1) as K.
    injection K as _ _ _ _ _ K. exact K.
Qed.

Lemma payload_equals_storage_line_witness :
  exists p a g,
    pressure (snd (acquire cycle_ok after_two)) = Bound p
    /\ altitude (snd (acquire cycle_ok after_two)) = Bound a
    /\ gps_data (snd (acquire cycle_ok after_two)) = Bound g
    /\ msg (snd (acquire cycle_ok after_two))
       = Bound (PyNum.str_int (packet after_two + 1) ++ "#" ++
                PyNum.repr p ++ "#" ++
                match a with Some x => PyNum.repr x | None => "None" end ++
                "#" ++ match g with Some x => x | None => "None" end)
    /\ sd_line (snd (acquire cycle_ok after_two))
       = msg (snd (acquire cycle_ok after_two))
    /\ msg (snd (cycle cycle_ok after_two))
       = msg (snd (acquire cycle_ok after_two))
    /\ sd_line (snd (cycle cycle_ok after_two))
       = sd_line (snd (acquire cycle_ok after_two)).
Proof.
  apply payload_equals_storage_line. vm_compute. reflexivity.
Defined.

(** ** A complete record *)

Lemma get_gps_data_fix (env : cycle_env) (raw : string) (d : GPSData) :
  collect (gps_rx env) 0 6 "" = Ok raw ->
  0 < PyStr.len raw ->
  parse_gps_data env raw = Ok d ->
  has_fix d = true ->
  get_gps_data (gps_rx env) (parse_gps_data env) = Ok (Some (format_fix d)).
Proof.
  intros C L P F. unfold get_gps_data, get_gps_data_body.
  rewrite C. apply Z.ltb_lt in L. rewrite L, P, F. reflexivity.
Qed.

(** C9.  Iteration 7 with pressure 1013.25, altitude 123.45 and a GPS fix
    at 12.345678, -98.765432, time token 123519 assembles exactly the
    radio payload [7#1013.25#123.45#12.345678#-98.765432#123519]. *)
Theorem full_record_payload (env : cycle_env) (s : state) (raw : string)
        (d : GPSData) :
  reachable s -> packet s = 6 -> BMP_INITIALIZED s = true ->
  bmp_pressure env = Ok (1013.25)%Q ->
  bmp_altitude env = Ok (123.45)%Q ->
  collect (gps_rx env) 0 6 "" = Ok raw ->
  0 < PyStr.len raw ->
  parse_gps_data env raw = Ok d ->
  has_fix d = true ->
  latitude d = (12.345678)%Q ->
  longitude d = (-98.765432)%Q ->
  time d = "123519" ->
  msg (snd (cycle env s))
  = Bound "7#1013.25#123.45#12.345678#-98.765432#123519".
Proof.
  intros R K Hb Hp Ha C L P F Hlat Hlon Htime.
  pose proof (get_gps_data_fix env raw d C L P F) as G.
  destruct (reachable_ready s R) as (Ht & Hg & _ & [g Hgps] & Hbmp).
  rewrite Hb in Hbmp. destruct Hbmp as [b Hbmp].
  assert (A : acquire env s
              = (Ok tt, snd (acquire env s))
              /\ msg (snd (acquire env s))
                 = Bound "7#1013.25#123.45#12.345678#-98.765432#123519").
  { unfold acquire, retry_transmitter, read_bmp, read_gps, assemble_msg,
      assemble_sd_line.
    exec. unfold modify. fields. unfold format_fix.
    rewrite Hlat, Hlon, Htime. split; reflexivity. }
  destruct A as [A M].
  unfold cycle. rewrite (exec_run _ _ _ _ _ A).
  pose proof (log_and_send_keeps_record env (snd (acquire env s))) as Kp.
  injection Kp as _ _ _ _ Kp _. rewrite Kp. exact M.
Qed.

Lemma full_record_payload_witness :
  msg (snd (cycle cycle_fix
                  (run [cycle_ok; cycle_ok; cycle_ok; cycle_ok; cycle_ok;
                        cycle_ok] booted)))
  = Bound "7#1013.25#123.45#12.345678#-98.765432#123519".
Proof.
  apply (full_record_payload cycle_fix _ "$GPRMC,123519,A" fix_123519).
  - apply reachable_run; [exact reachable_booted | vm_compute; reflexivity].
  - vm_compute; reflexivity.
  - vm_compute; reflexivity.
  - reflexivity.
  - reflexivity.
  - vm_compute; reflexivity.
  - vm_compute; reflexivity.
  - reflexivity.
  - reflexivity.
  - reflexivity.
  - reflexivity.
  - reflexivity.
Defined.

(** The command that carries it: 44 characters of payload. *)
Example full_record_command :
  send_command "7#1013.25#123.45#12.345678#-98.765432#123519"
  = "AT+SEND=2,44,7#1013.25#123.45#12.345678#-98.765432#123519".
Proof. reflexivity. Qed.


(** * Further properties of the code *)

(** ** The barometer and SD initialisers *)



(** ** Logging *)


(** ** AT commands *)


Lemma send_cmd_after_write (io : uart_io) (uart : device) (cmd : string)
      (w : bool) (s : state) :
  io_write io = Ok tt ->
  exists r, send_cmd io uart cmd w s = (r, push_radio (cmd ++ crlf) s).
Proof.
  intros Hw. unfold send_cmd. rewrite Hw. exec.
  destruct w; [|eexists; reflexivity].
  destruct (io_any io) as [n|e]; exec; [|eexists; reflexivity].
  destruct (n =? 0)%N; [eexists; reflexivity|].
  destruct (io_read io) as [[bytes|]|e]; exec; try (eexists; reflexivity).
  destruct (PyStr.truthy bytes); [|eexists; reflexivity].
  destruct (PyStr.decode PyStr.Ignore bytes); eexists; reflexivity.
Qed.

(** X5.  [send_cmd] puts exactly one frame on the wire, the command
    followed by CR LF, as soon as the write succeeds and whatever happens
    afterwards; when the write raises nothing is sent.  It never changes
    a Python name or the log file. *)
Theorem send_cmd_effect (io : uart_io) (uart : device) (cmd : string)
        (w : bool) (s : state) :
  radio_out (snd (send_cmd io uart cmd w s))
  = (if raises (io_write io) then radio_out s
     else radio_out s ++ [(cmd ++ crlf)%string])%list
  /\ python_names (snd (send_cmd io uart cmd w s)) = python_names s
  /\ flight_data (snd (send_cmd io uart cmd w s)) = flight_data s.
Proof.
  split; [|split].
  - destruct (io_write io) as [[]|e] eqn:Hw; cbn [raises].
    + destruct (send_cmd_after_write io uart cmd w s Hw) as [r ->].
      reflexivity.
    + unfold send_cmd. rewrite Hw. reflexivity.
  - apply (send_cmd_keeps python_names (fun _ _ => eq_refl)).
  - apply (send_cmd_keeps flight_data (fun _ _ => eq_refl)).
Qed.

(** The exchange decides whether [send_cmd] raises. *)
Lemma send_cmd_raises (io : uart_io) (uart : device) (cmd : string)
      (s : state) :
  raises (fst (send_cmd io uart cmd true s)) = negb (exchange_completes io).
Proof.
  unfold send_cmd, exchange_completes.
  destruct (io_write io) as [[]|e]; exec; [|reflexivity].
  destruct (io_any io) as [[|k]|e]; exec; cbn [N.eqb]; try reflexivity.
  destruct (io_read io) as [[bytes|]|e]; exec; try reflexivity.
  destruct (PyStr.truthy bytes); [|reflexivity].
  destruct (PyStr.decode PyStr.Ignore bytes); reflexivity.
Qed.

(** What [send_cmd] returns is decided by the bytes that arrived. *)
Lemma send_cmd_reply (io : uart_io) (uart : device) (cmd : string)
      (s s' : state) (x : option string) :
  send_cmd io uart cmd true s = (Ok x, s') -> x = reply_of (received io).
Proof.
  unfold send_cmd, received, reply_of.
  destruct (io_write io) as [[]|e]; exec; [|discriminate].
  destruct (io_any io) as [[|k]|e]; exec; cbn [N.eqb]; try discriminate.
  - intros E; injection E as <- _; reflexivity.
  - destruct (io_read io) as [[bytes|]|e]; exec; try discriminate.
    + destruct bytes as [|c bytes]; cbn [PyStr.truthy].
      * intros E; injection E as <- _; reflexivity.
      * destruct (PyStr.decode PyStr.Ignore (String c bytes));
          intros E; injection E as <- _; reflexivity.
    + intros E; injection E as <- _; reflexivity.
Qed.

(** ** Start-up *)

Lemma configure_raises (io : nat -> uart_io) (u : device)
      (cmds : list string) :
  forall i s,
    uart_transmitter s = Bound u ->
    raises (fst (configure io i cmds s))
    = negb (forallb (fun j => exchange_completes (io j))
                    (seq i (List.length cmds))).
Proof.
  induction cmds as [|c rest IH]; intros i s Hu; cbn [configure].
  - reflexivity.
  - cbn [List.length seq forallb]. exec.
    pose proof (send_cmd_raises (io i) u c s) as R.
    destruct (send_cmd (io i) u c true s) as [[x|e] s1] eqn:E;
      cbn [fst raises] in R.
    + rewrite (exec_run _ _ _ _ _ E).
      apply (f_equal negb) in R. rewrite negb_involutive in R.
      cbn [negb] in R. rewrite <- R. cbn [andb].
      apply IH.
      pose proof (keeps_at uart_transmitter _ _ _ _
                    (send_cmd_keeps uart_transmitter (fun _ _ => eq_refl)
                                    (io i) u c true) E) as K.
      congruence.
    + rewrite (exec_abort _ _ _ _ _ E). cbn [fst raises].
      apply (f_equal negb) in R. rewrite negb_involutive in R.
      cbn [negb] in R. rewrite <- R. reflexivity.
Qed.

Lemma configure_radio (io : nat -> uart_io) (cmds : list string) :
  forall i s s',
    configure io i cmds s = (Ok tt, s') ->
    radio_out s'
    = (radio_out s ++ map (fun c => (c ++ crlf)%string) cmds)%list.
Proof.
  induction cmds as [|c rest IH]; intros i s s' H; cbn [configure] in H.
  - injection H as <-. cbn [map]. rewrite app_nil_r. reflexivity.
  - apply bind_returns in H as (u & s1 & H1 & H).
    apply bind_returns in H as (x & s2 & H2 & H).
    unfold name in H1. destruct (uart_transmitter s); [discriminate|].
    injection H1 as -> <-.
    assert (Hw : io_write (io i) = Ok tt).
    { unfold send_cmd, bind, call in H2.
      destruct (io_write (io i)) as [[]|e]; [reflexivity|discriminate]. }
    destruct (send_cmd_after_write (io i) u c true s Hw) as [r E].
    rewrite E in H2. injection H2 as _ <-.
    rewrite (IH _ _ _ H). fields. cbn [map].
    rewrite <- app_assoc. reflexivity.
Qed.

(** X6.  When start-up completes, the radio has been sent exactly the
    six configuration commands, in the order of lines 186-192 and each
    ended by CR LF, whatever the module answered. *)
Theorem startup_configuration (b : boot_env) (s : state) :
  startup b initial = (Ok tt, s) ->
  radio_out s
  = ["AT" ++ crlf; "AT+RESET" ++ crlf; "AT+ADDRESS=1" ++ crlf;
     "AT+NETWORKID=18" ++ crlf; "AT+BAND=915000000" ++ crlf;
     "AT+PARAMETER=10,8,1,12" ++ crlf].
Proof.
  unfold startup. intros H.
  apply bind_returns in H as (d & s1 & H1 & H).
  apply bind_returns in H as ([] & s2 & H2 & H).
  apply bind_returns in H as (g & s3 & H3 & H).
  apply bind_returns in H as ([] & s4 & H4 & H).
  apply bind_returns in H as (o & s5 & H5 & H).
  apply bind_returns in H as ([] & s6 & H6 & H).
  apply bind_returns in H as (c & s7 & H7 & H).
  apply bind_returns in H as ([] & s8 & H8 & H).
  apply bind_returns in H as (ready & s9 & H9 & H).
  apply bind_returns in H as ([] & s10 & H10 & H).
  apply bind_returns in H as ([] & s11 & H11 & H).
  unfold modify in H. injection H as <-. fields.
  rewrite (configure_radio _ _ _ _ _ H11).
  repeat match goal with
         | Hc : ?c ?sa = (?r, ?sb) |- context [radio_out ?sb] =>
           rewrite (keeps_at radio_out c sa sb r
                      ltac:(unfold init_transmitter, init_gps, init_bmp,
                              init_sd_card; frame) Hc)
         end.
  reflexivity.
Qed.

Lemma startup_configuration_witness :
  radio_out booted_no_sd
  = ["AT" ++ crlf; "AT+RESET" ++ crlf; "AT+ADDRESS=1" ++ crlf;
     "AT+NETWORKID=18" ++ crlf; "AT+BAND=915000000" ++ crlf;
     "AT+PARAMETER=10,8,1,12" ++ crlf].
Proof.
  apply (startup_configuration boot_no_sd). vm_compute. reflexivity.
Defined.

Lemma raises_then_modify {A} (c : M A) (f : state -> state) (s : state) :
  raises (fst (bind c (fun _ => modify f) s)) = raises (fst (c s)).
Proof. unfold bind. destruct (c s) as [[a|e] s1]; reflexivity. Qed.

(** X7.  Start-up reaches the loop exactly when both UARTs could be
    opened, the second calibration of line 159 did not raise (it runs
    only if the barometer came up), and none of the six configuration
    exchanges raised.  Whether the barometer or the SD card came up, and
    what the radio module answered, plays no part. *)
Theorem startup_completes_iff (b : boot_env) :
  raises (fst (startup b initial)) = false <->
  raises (boot_tx_open b) = false /\
  raises (boot_gps_open b) = false /\
  (raises (boot_bmp_open b) = false ->
   raises (boot_bmp_calibrate b) = false ->
   raises (boot_bmp_recalibrate b) = false) /\
  forallb (fun j => exchange_completes (boot_at b j)) (seq 0 6) = true.
Proof.
  unfold startup.
  destruct (boot_tx_open b) as [[]|e];
    [rewrite (exec_run _ _ _ _ _ (init_transmitter_ok 0 1 initial))
    |rewrite (exec_abort _ _ _ _ _ (init_transmitter_raise e 0 1 initial));
     cbn [fst raises]; split; [discriminate | intros [H _]; discriminate]].
  exec.
  destruct (boot_gps_open b) as [[]|e];
    [erewrite exec_run by apply init_gps_ok
    |erewrite exec_abort by apply init_gps_raise;
     cbn [fst raises]; split; [discriminate | intros (_ & H & _); discriminate]].
  exec.
  assert (Hb : exists v,
             init_bmp (boot_bmp_open b) (boot_bmp_calibrate b) 12 13
               (set_gps (Bound (UART 1 9600 4 5))
                  (set_GPS_INITIALIZED true
                     (set_uart_transmitter (Bound (UART 0 115200 0 1))
                        (set_TRANSMITTER_INITIALIZED true initial))))
             = (Ok v,
                set_BMP_INITIALIZED
                  (negb (raises (boot_bmp_open b))
                   && negb (raises (boot_bmp_calibrate b)))
                  (set_gps (Bound (UART 1 9600 4 5))
                     (set_GPS_INITIALIZED true
                        (set_uart_transmitter (Bound (UART 0 115200 0 1))
                           (set_TRANSMITTER_INITIALIZED true initial)))))
             /\ (raises (boot_bmp_open b) = false -> exists d, v = Some d)).
  { destruct (boot_bmp_open b) as [[]|?];
      [destruct (boot_bmp_calibrate b) as [[]|?]|];
      eexists; (split; [reflexivity|]); cbn [raises]; intros;
        try discriminate; eauto. }
  destruct Hb as (v & Hb & Hv).
  rewrite (exec_run _ _ _ _ _ Hb). exec.
  match goal with
  | |- context [bind (init_sd_card ?m ?w ?a ?b ?c ?d ?f) ?k ?s] =>
    destruct (init_sd_card_returns m w a b c d f s) as (sd & s1 & Hsd);
      pose proof (keeps_at core _ _ _ _
                           (init_sd_card_keeps_core m w a b c d f) Hsd) as K
  end.
  rewrite (exec_run _ _ _ _ _ Hsd).
  cbn [core TRANSMITTER_INITIALIZED GPS_INITIALIZED
    BMP_INITIALIZED uart_transmitter gps bmp pressure packet initial
    set_BMP_INITIALIZED set_bmp set_gps set_GPS_INITIALIZED
    set_uart_transmitter set_TRANSMITTER_INITIALIZED] in K.
  injection K as K1 K2 K3 K4 K5 K6 K7 K8.
  exec.
  assert (Hc : forall s0,
             uart_transmitter s0 = Bound (UART 0 115200 0 1) ->
             raises (fst ((configure (boot_at b) 0 configuration;;
                           modify (set_packet 0)) s0))
             = negb (forallb (fun j => exchange_completes (boot_at b j))
                             (seq 0 6))).
  { intros s0 Hu. rewrite raises_then_modify.
    exact (configure_raises (boot_at b) _ configuration 0%nat s0 Hu). }
  destruct (boot_bmp_open b) as [[]|eo]; cbn [raises negb andb];
    [destruct (boot_bmp_calibrate b) as [[]|ec]; cbn [raises negb andb]|].
  - destruct (Hv eq_refl) as [d ->]. exec.
    destruct (boot_bmp_recalibrate b) as [[]|er]; exec.
    + rewrite Hc by (fields; exact K4).
      rewrite negb_false_iff. tauto.
    + cbn [raises]. split; [discriminate|].
      intros (_ & _ & H & _). specialize (H eq_refl eq_refl). discriminate.
  - exec. rewrite Hc by (fields; exact K4).
    rewrite negb_false_iff. split.
    + intros H. repeat split; try assumption. discriminate.
    + intros (_ & _ & _ & H). exact H.
  - exec. rewrite Hc by (fields; exact K4).
    rewrite negb_false_iff. split.
    + intros H. repeat split; try assumption. discriminate.
    + intros (_ & _ & _ & H). exact H.
Qed.

Lemma startup_completes_iff_witness :
  raises (fst (startup boot_no_bmp initial)) = false
  /\ raises (fst (startup boot_no_sd initial)) = false.
Proof.
  split.
  - apply (proj2 (startup_completes_iff boot_no_bmp)).
    split; [reflexivity|]. split; [reflexivity|].
    split; [intros _ _; reflexivity | vm_compute; reflexivity].
  - apply (proj2 (startup_completes_iff boot_no_sd)).
    split; [reflexivity|]. split; [reflexivity|].
    split; [intros _ _; reflexivity | vm_compute; reflexivity].
Defined.

(** ** What the loop never does *)

(** X8.  Inside the loop both UART flags are always true, so the
    recovery branch of lines 212-215 never runs: for every state the loop
    can be in, those lines leave the state as it is. *)
Theorem transmitter_retry_is_dead (env : cycle_env) (s : state) :
  reachable s ->
  TRANSMITTER_INITIALIZED s = true /\ GPS_INITIALIZED s = true
  /\ retry_transmitter env s = (Ok tt, s).
Proof.
  intros R. destruct (reachable_ready s R) as (Ht & Hg & _).
  repeat split; try assumption.
  unfold retry_transmitter. exec. reflexivity.
Qed.

Lemma transmitter_retry_is_dead_witness :
  TRANSMITTER_INITIALIZED after_two = true /\ GPS_INITIALIZED after_two = true
  /\ retry_transmitter cycle_bmp_fault after_two = (Ok tt, after_two).
Proof.
  apply transmitter_retry_is_dead.
  apply reachable_run; [exact reachable_booted | vm_compute; reflexivity].
Defined.

Lemma cycle_keeps_sensors (env : cycle_env) :
  keeps sensors_and_storage (cycle env).
Proof.
  unfold cycle, acquire, retry_transmitter, init_transmitter, read_bmp,
    read_gps, assemble_msg, assemble_sd_line, log_and_send, write_to_sd,
    transmit, send_cmd.
  frame.
Qed.

(** X9.  The loop never re-initialises the GPS, the barometer or the SD
    card: after every iteration, completed or not and from any state,
    their flags and objects are what they were when the loop started. *)
Theorem loop_never_recovers (envs : list cycle_env) :
  forall s o,
    In o (loop envs s) -> sensors_and_storage (snd o) = sensors_and_storage s.
Proof.
  induction envs as [|env rest IH]; intros s o H; cbn [loop] in H.
  - destruct H.
  - destruct H as [<- | H].
    + apply cycle_keeps_sensors.
    + destruct (fst (cycle env s)); [|destruct H].
      rewrite (IH _ _ H). apply cycle_keeps_sensors.
Qed.

Lemma loop_never_recovers_witness :
  sensors_and_storage (snd (cycle cycle_ok (snd (cycle cycle_ok booted_no_sd))))
  = sensors_and_storage booted_no_sd.
Proof.
  apply (loop_never_recovers [cycle_ok; cycle_ok] booted_no_sd).
  vm_compute. right. left. reflexivity.
Defined.

(** ** The GPS acquisition window *)

Lemma append_empty_r (a : string) : a ++ "" = a.
Proof. induction a as [|c a IH]; cbn; congruence. Qed.

Lemma append_assoc (a b c : string) : (a ++ b) ++ c = a ++ b ++ c.
Proof. induction a as [|x a IH]; cbn; congruence. Qed.

Lemma poll_returns (io : uart_io) (raw : string) :
  poll io raw
  = match io_any io with
    | Raise e => Raise e
    | Ok _ => Ok (raw ++ poll_text io)
    end.
Proof.
  unfold poll, poll_text, received.
  destruct (io_any io) as [[|k]|e]; [cbn; rewrite append_empty_r| |];
    try reflexivity.
  destruct (io_read io) as [[chunk|]|e];
    try (cbn; rewrite append_empty_r; reflexivity).
  destruct chunk as [|c chunk]; [cbn; rewrite append_empty_r; reflexivity|].
  cbn [PyStr.truthy].
  destruct (PyStr.decode PyStr.Ignore (String c chunk));
    [reflexivity | rewrite append_empty_r; reflexivity].
Qed.

(** X10.  The polling loop fails only if [any()] raises in one of its
    turns; otherwise what it hands to the parser is the decoded text of
    its turns joined in order, after what was there before.  A [read()]
    that raises or returns nothing contributes the empty text and loses
    nothing collected earlier. *)
Theorem collect_joins_polls (rx : nat -> uart_io) (n : nat) :
  forall i raw,
    raises (collect rx i n raw)
    = existsb (fun j => raises (io_any (rx j))) (seq i n)
    /\ (forall raw',
           collect rx i n raw = Ok raw' ->
           raw' = raw ++ joined (map (fun j => poll_text (rx j)) (seq i n))).
Proof.
  induction n as [|n IH]; intros i raw; cbn [collect seq existsb map joined
                                              fold_right].
  - split; [reflexivity|]. intros raw' E. injection E as <-.
    rewrite append_empty_r. reflexivity.
  - rewrite poll_returns.
    destruct (io_any (rx i)) as [k|e]; cbn [raises orb].
    + destruct (IH (S i) (raw ++ poll_text (rx i))) as [R J].
      split; [exact R|]. intros raw' E. rewrite (J raw' E).
      apply append_assoc.
    + split; [reflexivity | discriminate].
Qed.

Lemma collect_joins_polls_witness :
  collect (gps_rx cycle_fix) 0 6 ""
  = Ok ("" ++ joined (map (fun j => poll_text (gps_rx cycle_fix j))
                          (seq 0 6))).
Proof.
  assert (E : exists raw', collect (gps_rx cycle_fix) 0 6 "" = Ok raw')
    by (eexists; vm_compute; reflexivity).
  destruct E as [raw' E]. rewrite E. f_equal.
  exact (proj2 (collect_joins_polls (gps_rx cycle_fix) 6 0%nat "") raw' E).
Defined.





(** ** What a completed iteration has done *)

Lemma write_to_sd_returns (w : result unit) (line : string) (s s' : state)
      (b : bool) :
  write_to_sd w line s = (Ok b, s') ->
  b = SD_INITIALIZED s && negb (raises w)
  /\ s' = (if b then append_file (line ++ "|") s else s).
Proof.
  unfold write_to_sd. exec.
  destruct (SD_INITIALIZED s); fields.
  - destruct w as [[]|e]; cbn; intros E; injection E as <- <-;
      split; reflexivity.
  - intros E; injection E as <- <-; split; reflexivity.
Qed.

Lemma write_to_sd_mounted (line : string) (s : state) :
  SD_INITIALIZED s = true ->
  write_to_sd (Ok tt) line s = (Ok true, append_file (line ++ "|") s).
Proof. intros H. unfold write_to_sd. exec. reflexivity. Qed.

Lemma acquire_keeps_world (env : cycle_env) :
  keeps (fun s => (SD_INITIALIZED s, flight_data s, radio_out s))
        (acquire env).
Proof.
  unfold acquire, retry_transmitter, init_transmitter, read_bmp, read_gps,
    assemble_msg, assemble_sd_line.
  frame.
Qed.

(** The whole effect of lines 239-245 in an iteration that completes. *)
Lemma cycle_effect (env : cycle_env) (s s' : state) (r : report) :
  cycle env s = (Ok r, s') ->
  exists s1 l m,
    acquire env s = (Ok tt, s1)
    /\ sd_line s1 = Bound l /\ msg s1 = Bound m
    /\ logged r = SD_INITIALIZED s && negb (raises (sd_write env))
    /\ acked r = acknowledged (reply_of (received (tx_io env)))
    /\ s' = set_response
              (Bound (reply_of (received (tx_io env))))
              (push_radio (send_command m ++ crlf)
                 (if logged r then append_file (l ++ "|") s1 else s1)).
Proof.
  unfold cycle. intros H.
  apply bind_returns in H as ([] & s1 & A & H).
  unfold log_and_send in H.
  apply bind_returns in H as (l & s2 & L & H).
  apply bind_returns in H as (b & s3 & W & H).
  unfold transmit in H.
  apply bind_returns in H as (u & s4 & U & H).
  apply bind_returns in H as (m & s5 & Mm & H).
  apply bind_returns in H as (x & s6 & S & H).
  apply bind_returns in H as ([] & s7 & R & H).
  unfold name in L. destruct (sd_line s1) as [|l'] eqn:El; [discriminate|].
  injection L as -> <-.
  apply write_to_sd_returns in W as [Eb ->].
  unfold name in U.
  destruct (uart_transmitter (if b then append_file (l ++ "|") s1 else s1))
    as [|u'] eqn:Eu; [discriminate|].
  injection U as -> <-.
  unfold name in Mm.
  destruct (msg (if b then append_file (l ++ "|") s1 else s1))
    as [|m'] eqn:Em; [discriminate|].
  injection Mm as -> <-.
  pose proof (send_cmd_reply _ _ _ _ _ _ S) as ->.
  assert (Hw : io_write (tx_io env) = Ok tt).
  { unfold send_cmd, bind, call in S.
    destruct (io_write (tx_io env)) as [[]|e]; [reflexivity|discriminate]. }
  destruct (send_cmd_after_write
              (tx_io env) u (send_command m) true
              (if b then append_file (l ++ "|") s1 else s1) Hw)
    as [r0 E0].
  rewrite E0 in S. injection S as _ <-.
  unfold modify in R. injection R as <-.
  unfold ret in H. injection H as <- <-.
  pose proof (keeps_at _ _ _ _ _ (acquire_keeps_world env) A) as K.
  injection K as K1 _ _.
  exists s1, l, m. cbn [logged acked]. rewrite <- K1.
  repeat split; try assumption.
  destruct b; exact Em.
Qed.



(** X14.  A completed iteration has sent exactly one frame: the AT+SEND
    command for destination 2 with the length and the text of that
    iteration's payload, ended by CR LF. *)
Theorem cycle_sends_one_frame (env : cycle_env) (s s' : state) (r : report) :
  cycle env s = (Ok r, s') ->
  exists m,
    msg s' = Bound m
    /\ radio_out s'
       = (radio_out s
          ++ [("AT+SEND=2," ++ PyNum.str_int (PyStr.len m) ++ "," ++ m
               ++ crlf)%string])%list.
Proof.
  intros H.
  destruct (cycle_effect env s s' r H) as (s1 & l & m & A & _ & Mm & _ & _ & ->).
  pose proof (keeps_at _ _ _ _ _ (acquire_keeps_world env) A) as K.
  injection K as _ _ K.
  exists m. unfold send_command. rewrite !append_assoc.
  destruct (logged r); fields; rewrite K; split; assumption || reflexivity.
Qed.

Lemma cycle_sends_one_frame_witness :
  exists m,
    msg (snd (cycle cycle_fix after_two)) = Bound m
    /\ radio_out (snd (cycle cycle_fix after_two))
       = (radio_out after_two
          ++ [("AT+SEND=2," ++ PyNum.str_int (PyStr.len m) ++ "," ++ m
               ++ crlf)%string])%list.
Proof.
  apply (cycle_sends_one_frame cycle_fix after_two _
                               {| logged := true; acked := true |}).
  vm_compute. reflexivity.
Defined.

(** X15.  A completed iteration reports an acknowledgement exactly when
    the bytes the radio module returned, decoded and stripped, contain
    [+OK] or are [OK]; the stripped text is what is left in [response],
    and [None] is left there when nothing arrived. *)
Theorem cycle_acknowledgement (env : cycle_env) (s s' : state) (r : report) :
  cycle env s = (Ok r, s') ->
  response s' = Bound (reply_of (received (tx_io env)))
  /\ (acked r = true <->
      exists text,
        received (tx_io env) <> ""
        /\ PyStr.decode PyStr.Ignore (received (tx_io env)) = Ok text
        /\ (PyStr.contains "+OK" (PyStr.strip text) = true
            \/ PyStr.strip text = "OK")).
Proof.
  intros H.
  destruct (cycle_effect env s s' r H) as (s1 & l & m & _ & _ & _ & _ & Ak & ->).
  split; [reflexivity|]. rewrite Ak. unfold reply_of.
  destruct (received (tx_io env)) as [|c bytes] eqn:E.
  - cbn. split; [discriminate | intros (t & N & _); congruence].
  - destruct (decode_ignore_total (String c bytes)) as [text ->].
    cbn [acknowledged]. rewrite andb_true_iff, orb_true_iff, String.eqb_eq.
    split.
    + intros [_ D]. exists text. repeat split; [discriminate|exact D].
    + intros (t & _ & T & D). injection T as <-. split; [|exact D].
      destruct D as [D | ->]; [|reflexivity].
      destruct (PyStr.strip text); [discriminate D|reflexivity].
Qed.

Lemma cycle_acknowledgement_witness :
  response (snd (cycle cycle_fix after_two))
  = Bound (reply_of (received (tx_io cycle_fix)))
  /\ (acked {| logged := true; acked := true |} = true <->
      exists text,
        received (tx_io cycle_fix) <> ""
        /\ PyStr.decode PyStr.Ignore (received (tx_io cycle_fix)) = Ok text
        /\ (PyStr.contains "+OK" (PyStr.strip text) = true
            \/ PyStr.strip text = "OK")).
Proof.
  apply (cycle_acknowledgement cycle_fix after_two). vm_compute. reflexivity.
Defined.

(** X16.  The line is logged before the radio is touched: when the UART
    write of the transmit step raises, the iteration ends with that
    exception, and the storage line is already in the log. *)
Theorem log_precedes_transmit (env : cycle_env) (s s1 : state) (u : device)
        (e : exn) :
  acquire env s = (Ok tt, s1) ->
  uart_transmitter s1 = Bound u ->
  SD_INITIALIZED s = true ->
  sd_write env = Ok tt ->
  io_write (tx_io env) = Raise e ->
  fst (cycle env s) = Raise e
  /\ exists l,
      sd_line s1 = Bound l
      /\ flight_data (snd (cycle env s)) = flight_data s ++ l ++ "|"
      /\ radio_out (snd (cycle env s)) = radio_out s.
Proof.
  intros A U Sd W Hw.
  pose proof (keeps_at _ _ _ _ _ (acquire_keeps_world env) A) as K.
  injection K as K1 K2 K3. rewrite Sd in K1.
  destruct (acquire_returns env s s1 A) as (p & a & g & _ & _ & _ & _ & Mm & L).
  rewrite Mm in L.
  unfold cycle. rewrite (exec_run _ _ _ _ _ A).
  unfold log_and_send. exec.
  erewrite exec_run by (apply write_to_sd_mounted; exact K1).
  unfold transmit, send_cmd. exec.
  split; [reflexivity|]. eexists. split; [reflexivity|].
  fields. rewrite ?K2, ?K3. split; reflexivity.
Qed.

Lemma log_precedes_transmit_witness :
  fst (cycle cycle_radio_fault booted) = Raise (OSError 110)
  /\ exists l,
      sd_line (snd (acquire cycle_radio_fault booted)) = Bound l
      /\ flight_data (snd (cycle cycle_radio_fault booted))
         = flight_data booted ++ l ++ "|"
      /\ radio_out (snd (cycle cycle_radio_fault booted)) = radio_out booted.
Proof.
  apply (log_precedes_transmit cycle_radio_fault booted
           (snd (acquire cycle_radio_fault booted)) (UART 0 115200 0 1)
           (OSError 110));
    vm_compute; reflexivity.
Defined.

(** ** When the loop ends *)

Lemma raises_then {A B} (c : M A) (k : A -> M B) (s : state) :
  (forall a s1, raises (fst (k a s1)) = false) ->
  raises (fst (bind c k s)) = raises (fst (c s)).
Proof.
  intros H. unfold bind. destruct (c s) as [[a|e] s1]; [apply H|reflexivity].
Qed.

(** X17.  From a state the loop can be in, an iteration runs to its end
    exactly when the barometer was initialised, neither of its two reads
    raises, and the exchange with the radio raises nowhere.  What the GPS
    UART, the parser and the SD card do never ends the loop. *)
Theorem cycle_raises_iff (env : cycle_env) (s : state) :
  reachable s ->
  raises (fst (cycle env s))
  = negb (BMP_INITIALIZED s
          && negb (raises (bmp_altitude env))
          && negb (raises (bmp_pressure env))
          && exchange_completes (tx_io env)).
Proof.
  intros R. pose proof (reachable_ready s R) as Rd.
  destruct (BMP_INITIALIZED s) eqn:Hb.
  - destruct Rd as (Ht & Hg & [u Hu] & [g Hgps] & Hbmp).
    rewrite Hb in Hbmp. destruct Hbmp as [d Hd].
    destruct (get_gps_data_ok (gps_rx env) (parse_gps_data env)) as [fx Hfx].
    rewrite cycle_ready_unfold by exact Ht.
    unfold read_bmp. exec.
    destruct (bmp_altitude env) as [a|e]; exec; [|reflexivity].
    destruct (bmp_pressure env) as [p|e]; exec; [|reflexivity].
    unfold read_gps, assemble_msg, assemble_sd_line, log_and_send. exec.
    match goal with
    | |- context [bind (write_to_sd ?w ?l) ?k ?s0] =>
      destruct (write_to_sd w l s0) as [[b|e] s1] eqn:W;
        [pose proof (write_to_sd_returns _ _ _ _ _ W) as [_ ->]
        |unfold write_to_sd, try_except, bind, get, call, modify, ret in W;
         destruct (negb (SD_INITIALIZED s0)); [discriminate|];
         destruct w as [[]|?]; discriminate]
    end.
    rewrite (exec_run _ _ _ _ _ W).
    unfold transmit.
    erewrite exec_name by (destruct b; fields; exact Hu).
    erewrite exec_name by (destruct b; fields; reflexivity).
    rewrite raises_then by (intros; reflexivity).
    rewrite send_cmd_raises. cbn [raises negb andb]. reflexivity.
  - destruct (cycle_without_bmp env s Rd Hb) as (r & _ & ->). reflexivity.
Qed.

Lemma cycle_raises_iff_witness :
  raises (fst (cycle cycle_fix after_two)) = false
  /\ raises (fst (cycle cycle_radio_fault after_two)) = true.
Proof.
  assert (R : reachable after_two)
    by (apply reachable_run;
        [exact reachable_booted | vm_compute; reflexivity]).
  split.
  - rewrite (cycle_raises_iff cycle_fix after_two R). vm_compute. reflexivity.
  - rewrite (cycle_raises_iff cycle_radio_fault after_two R).
    vm_compute. reflexivity.
Defined.

(** ** ASCII sentences *)

Lemma decode_ascii (bytes : string) :
  all_ascii bytes = true -> PyStr.decode PyStr.Ignore bytes = Ok bytes.
Proof.
  induction bytes as [|c rest IH]; [reflexivity|].
  cbn [all_ascii]. intros H. apply andb_true_iff in H as [Hc Hr].
  cbn [PyStr.decode]. rewrite Hc, (IH Hr). reflexivity.
Qed.

(** X18.  A poll that delivers only ASCII bytes, as NMEA sentences are,
    adds exactly those bytes to [raw_data]: decoding changes nothing. *)
Theorem poll_ascii (io : uart_io) (raw : string) (n : N) :
  io_any io = Ok n ->
  all_ascii (received io) = true ->
  poll io raw = Ok (raw ++ received io).
Proof.
  intros Ha Hs. rewrite poll_returns, Ha. unfold poll_text.
  rewrite (decode_ascii _ Hs). reflexivity.
Qed.

Lemma poll_ascii_witness :
  poll (replies "$GPRMC,123519,A") "$GPGGA"
  = Ok ("$GPGGA" ++ received (replies "$GPRMC,123519,A")).
Proof.
  apply (poll_ascii (replies "$GPRMC,123519,A") "$GPGGA" 15%N); reflexivity.
Defined.
